(** * readme-battle: the battle step and its state file

    A shallow embedding of [simulate_battle.py].

    Modelling conventions.
    - A Python [str] is a [string]; a character is an [ascii], read as the
      code point of that number (U+0000 .. U+00FF).  The state file is the
      sequence of characters that the text layer hands to the program: the
      byte encoding is not part of the model.
    - A Python [int] is a [Z].  The interpreter's configurable limit on the
      number of digits converted between [int] and [str] is not modelled.
    - The [wins] dictionary is a [gmap string Z]; a missing key raises
      [KeyError], which the model renders as [None].
    - The board is a list of rows, a row is a list of one-character cells.
    - The two files the script touches are the fields of [files]; code that
      reads or writes them lives in the monad [M], whose [None] result is an
      exception that escapes to the caller.
    - [random.randint(0, BOARD_ROWS - 1)] and the outcome of
      [random.random() < 0.5] are inputs of [simulate_battle].
    - The rendered board contains box-drawing characters, so rendered text is
      a list of code points ([text]). *)

From Stdlib Require Import ZArith String Ascii List DecimalString DecimalZ.
From stdpp Require Import gmap strings list.

(** ** Python string primitives used by the script *)

Module Py.

Definition LF : ascii := "010"%char.
Definition CR : ascii := "013"%char.

(** [str.isspace] on one character below U+0100: TAB..CR, FS..US, SPACE,
    NEL and NBSP. *)
Definition isspace (c : ascii) : bool :=
  let n := N_of_ascii c in
  ((9 <=? n) && (n <=? 13) || (28 <=? n) && (n <=? 32)
   || (n =? 133) || (n =? 160))%N.

(** Reading in text mode with the default [newline=None]: CR LF and a lone
    CR both become LF. *)
Fixpoint universal_newlines (s : string) : string :=
  match s with
  | EmptyString => EmptyString
  | String c s' =>
      if Ascii.eqb c CR then
        match s' with
        | String c' s'' =>
            if Ascii.eqb c' LF then String LF (universal_newlines s'')
            else String LF (universal_newlines s')
        | EmptyString => String LF EmptyString
        end
      else String c (universal_newlines s')
  end.

(** [f.readlines()] on translated text: lines keep their terminator. *)
Fixpoint readlines (s : string) : list string :=
  match s with
  | EmptyString => []
  | String c s' =>
      if Ascii.eqb c LF then String LF EmptyString :: readlines s'
      else match readlines s' with
           | [] => [String c EmptyString]
           | l :: ls => String c l :: ls
           end
  end.

(** [s.rstrip(chars)], the set of characters given as a predicate. *)
Fixpoint rstrip (p : ascii → bool) (s : string) : string :=
  match s with
  | EmptyString => EmptyString
  | String c s' =>
      match rstrip p s' with
      | EmptyString => if p c then EmptyString else String c EmptyString
      | t => String c t
      end
  end.

Fixpoint lstrip (p : ascii → bool) (s : string) : string :=
  match s with
  | EmptyString => EmptyString
  | String c s' => if p c then lstrip p s' else s
  end.

(** [s.strip()] *)
Definition strip (s : string) : string := rstrip isspace (lstrip isspace s).

(** [s.split()]: maximal runs of non-blank characters. [cur] is the run
    being read. *)
Fixpoint split_go (cur : string) (s : string) : list string :=
  match s with
  | EmptyString => match cur with EmptyString => [] | _ => [cur] end
  | String c s' =>
      if isspace c then
        match cur with
        | EmptyString => split_go EmptyString s'
        | _ => cur :: split_go EmptyString s'
        end
      else split_go (cur +:+ String c EmptyString) s'
  end.

Definition split (s : string) : list string := split_go EmptyString s.

(** [s.split(sep)] for a one-character separator: empty pieces are kept. *)
Fixpoint split_sep_go (sep : ascii) (cur : string) (s : string) : list string :=
  match s with
  | EmptyString => [cur]
  | String c s' =>
      if Ascii.eqb c sep then cur :: split_sep_go sep EmptyString s'
      else split_sep_go sep (cur +:+ String c EmptyString) s'
  end.

Definition split_sep (sep : ascii) (s : string) : list string :=
  split_sep_go sep EmptyString s.

(** Value of a decimal digit; below U+0100 these are '0'..'9' only. *)
Definition digit_value (c : ascii) : option Z :=
  let n := N_of_ascii c in
  if ((48 <=? n) && (n <=? 57))%N then Some (Z.of_N n - 48)%Z else None.

(** Digits of an [int] literal: single underscores may separate digits. *)
Fixpoint digits_go (acc : Z) (after_underscore : bool) (s : string) : option Z :=
  match s with
  | EmptyString => if after_underscore then None else Some acc
  | String c s' =>
      if Ascii.eqb c "_" then
        if after_underscore then None else digits_go acc true s'
      else
        match digit_value c with
        | Some d => digits_go (10 * acc + d)%Z false s'
        | None => None
        end
  end.

Definition digits (s : string) : option Z :=
  match s with
  | EmptyString => None
  | String c _ => if Ascii.eqb c "_" then None else digits_go 0%Z false s
  end.

(** [int(s)]: [None] is [ValueError]. *)
Definition int (s : string) : option Z :=
  match strip s with
  | String c ds =>
      if Ascii.eqb c "-" then Z.opp <$> digits ds
      else if Ascii.eqb c "+" then digits ds
      else digits (String c ds)
  | EmptyString => None
  end.

(** [str(n)] and [f"{n}"] for an [int]. *)
Definition str (n : Z) : string := NilZero.string_of_int (Z.to_int n).

(** [max] of a sequence; [None] is the [ValueError] for an empty one. *)
Definition max (l : list Z) : option Z :=
  match l with
  | [] => None
  | x :: l' => Some (foldl Z.max x l')
  end.

(** [enumerate] *)
Definition enumerate {A} (l : list A) : list (nat * A) :=
  zip (seq 0 (length l)) l.

(** [l[i] = x]; [None] is [IndexError]. *)
Definition setitem {A} (l : list A) (i : nat) (x : A) : option (list A) :=
  if (i <? length l)%nat then Some (<[i:=x]> l) else None.

End Py.

(** ** Rendered text *)

Definition text := list N.

Definition text_of (s : string) : text :=
  N_of_ascii <$> list_ascii_of_string s.

(** [sep.join(parts)] *)
Fixpoint join (sep : text) (parts : list text) : text :=
  match parts with
  | [] => []
  | [p] => p
  | p :: ps => p ++ sep ++ join sep ps
  end.

(** [s.center(width)], padding with spaces. *)
Definition center (width : nat) (s : text) : text :=
  let len := length s in
  if (width <=? len)%nat then s
  else
    let marg := (width - len)%nat in
    let left := (marg / 2 + Nat.land marg (Nat.land width 1))%nat in
    replicate left 32%N ++ s ++ replicate (marg - left) 32%N.

(** ** The files and the monad of the script *)

(** Contents of [battle_state.txt] and [battle_map.txt]; [None] when the
    file does not exist. *)
Record files := Files {
  battle_state : option string;
  battle_map : option text
}.

Definition M (A : Type) : Type := files → option A * files.

Definition ret {A} (x : A) : M A := λ fs, (Some x, fs).

Definition bind {A B} (m : M A) (k : A → M B) : M B :=
  λ fs, match m fs with
        | (Some x, fs') => k x fs'
        | (None, fs') => (None, fs')
        end.

(** An operation that may raise, run inside the script. *)
Definition lift {A} (o : option A) : M A := λ fs, (o, fs).

Notation "x <~ m ; k" := (bind m (λ x, k))
  (at level 100, m at next level, right associativity,
   format "'[v' x  <~  m ; '/' k ']'").
Notation "m ;; k" := (bind m (λ _, k))
  (at level 100, right associativity).

(** ** The script *)

Definition BOARD_ROWS : nat := 6.
Definition BOARD_COLS : nat := 5.

Definition create_initial_board : list (list ascii) :=
  (λ r : nat,
     if (r <? BOARD_ROWS / 2)%nat
     then replicate 3 "A"%char ++ replicate (BOARD_COLS - 3) "B"%char
     else replicate (BOARD_COLS - 3) "A"%char ++ replicate 3 "B"%char)
  <$> seq 0 BOARD_ROWS.

(** The dictionary [{'A': a, 'B': b, 'DAYS': d, 'RECORD': r}]. *)
Definition counters (a b d r : Z) : gmap string Z :=
  <["RECORD" := r]> (<["DAYS" := d]> (<["B" := b]> (<["A" := a]> ∅))).

Definition default_state : gmap string Z * list (list ascii) :=
  let wins := counters 0 0 0 0 in
  let board := create_initial_board in
  (wins, board).

(** One round of the loop over [parts[1:]]. *)
Definition parse_part (part : string) : option (string * Z) :=
  match Py.split_sep ":" part with
  | [key; count] => n ← Py.int count; Some (key, n)
  | _ => None
  end.

Fixpoint parse_parts (parts : list string) (wins : gmap string Z)
  : option (gmap string Z) :=
  match parts with
  | [] => Some wins
  | part :: rest =>
      kn ← parse_part part;
      parse_parts rest (<[kn.1 := kn.2]> wins)
  end.

(** [if key not in wins: wins[key] = 0] *)
Definition ensure_key (key : string) (wins : gmap string Z) : gmap string Z :=
  match wins !! key with
  | None => <[key := 0%Z]> wins
  | Some _ => wins
  end.

(** [[line.rstrip('\n') for line in f.readlines()]] *)
Definition file_lines (content : string) : list string :=
  Py.rstrip (Ascii.eqb Py.LF)
  <$> Py.readlines (Py.universal_newlines content).

(** The body of the [try] block once the file is open; [None] is an
    exception, which the [except] clause turns into the default state. *)
Definition load_state_try (content : string)
  : option (gmap string Z * list (list ascii)) :=
  let lines := file_lines content in
  if (length lines <? 1 + BOARD_ROWS)%nat then Some default_state
  else
    line0 ← lines !! 0%nat;
    let parts := Py.split line0 in
    wins ← parse_parts (drop 1 parts) ∅;
    let wins := ensure_key "DAYS" wins in
    let wins := ensure_key "RECORD" wins in
    let board_lines := take BOARD_ROWS (drop 1 lines) in
    if existsb (λ line, negb (String.length line =? BOARD_COLS)%nat) board_lines
    then Some default_state
    else
      let board := list_ascii_of_string <$> board_lines in
      Some (wins, board).

Definition load_state : M (gmap string Z * list (list ascii)) :=
  λ fs,
    match battle_state fs with
    | None => (Some default_state, fs)
    | Some content =>
        match load_state_try content with
        | Some st => (Some st, fs)
        | None => (Some default_state, fs)
        end
    end.

(** [open(STATE_FILE, 'w')] creates or truncates the file. *)
Definition open_state_w : M unit :=
  λ fs, (Some tt, Files (Some EmptyString) (battle_map fs)).

(** [f.write(s)] on the state file opened for writing. *)
Definition write_state (s : string) : M unit :=
  λ fs, (Some tt,
         Files (Some (default EmptyString (battle_state fs) +:+ s))
               (battle_map fs)).

(** Writing the whole output file. *)
Definition write_output (t : text) : M unit :=
  λ fs, (Some tt, Files (battle_state fs) (Some t)).

Fixpoint write_rows (board : list (list ascii)) : M unit :=
  match board with
  | [] => ret tt
  | row :: rest =>
      write_state (string_of_list_ascii row +:+ String Py.LF EmptyString);;
      write_rows rest
  end.

(** The first line of the state file. *)
Definition counters_line (a b d r : Z) : string :=
  "WINS A:" +:+ Py.str a +:+ " B:" +:+ Py.str b +:+
  " DAYS:" +:+ Py.str d +:+ " RECORD:" +:+ Py.str r +:+
  String Py.LF EmptyString.

Definition save_state (wins : gmap string Z) (board : list (list ascii))
  : M unit :=
  open_state_w;;
  a <~ lift (wins !! "A");
  b <~ lift (wins !! "B");
  d <~ lift (wins !! "DAYS");
  r <~ lift (wins !! "RECORD");
  write_state (counters_line a b d r);;
  write_rows board.

(** Box-drawing characters of the renderer. *)
Definition box_h : N := 9472.    (* U+2500 *)
Definition box_v : N := 9474.    (* U+2502 *)
Definition box_dr : N := 9484.   (* U+250C *)
Definition box_dl : N := 9488.   (* U+2510 *)
Definition box_ur : N := 9492.   (* U+2514 *)
Definition box_ul : N := 9496.   (* U+2518 *)
Definition box_vr : N := 9500.   (* U+251C *)
Definition box_vl : N := 9508.   (* U+2524 *)
Definition box_hd : N := 9516.   (* U+252C *)
Definition box_hu : N := 9524.   (* U+2534 *)
Definition box_vh : N := 9532.   (* U+253C *)

Fixpoint board_lines (middle_border : text) (n : nat) (i : nat)
    (board : list (list ascii)) : list text :=
  match board with
  | [] => []
  | row :: rest =>
      let row_line :=
        [box_v] ++ join [box_v] ((λ cell, center 5 [N_of_ascii cell]) <$> row)
        ++ [box_v] in
      (row_line :: if (i <? n - 1)%nat then [middle_border] else [])
      ++ board_lines middle_border n (S i) rest
  end.

Definition generate_ascii_board (board : list (list ascii))
    (wins : gmap string Z) : option text :=
  let cell_width := 5%nat in
  row0 ← board !! 0%nat;
  let num_cols := length row0 in
  a ← wins !! "A";
  b ← wins !! "B";
  d ← wins !! "DAYS";
  r ← wins !! "RECORD";
  let header :=
    text_of ("Wins - A: " +:+ Py.str a +:+ " | B: " +:+ Py.str b +:+
             String Py.LF EmptyString +:+
             "Days: " +:+ Py.str d +:+ "   Record: " +:+ Py.str r +:+
             String Py.LF (String Py.LF EmptyString)) in
  let cells := replicate num_cols (replicate cell_width box_h) in
  let top_border := [box_dr] ++ join [box_hd] cells ++ [box_dl] in
  let middle_border := [box_vr] ++ join [box_vh] cells ++ [box_vl] in
  let bottom_border := [box_ur] ++ join [box_hu] cells ++ [box_ul] in
  let lines :=
    [header; top_border]
    ++ board_lines middle_border (length board) 0 board
    ++ [bottom_border] in
  Some (join [N_of_ascii Py.LF] lines).

Definition is_row_uniform (row : list ascii) : bool :=
  forallb (λ cell,
             match row !! 0%nat with
             | Some first => Ascii.eqb cell first
             | None => false (* [row[0]] of an empty row: never evaluated *)
             end) row.

(** Indices of the cells equal to ['A'], in increasing order. *)
Definition a_indices (row : list ascii) : list Z :=
  (λ p : nat * ascii, Z.of_nat p.1)
  <$> filter (λ p : nat * ascii, p.2 = "A"%char) (Py.enumerate row).

(** The [try]/[except ValueError] around [max]. *)
Definition boundary_of (row : list ascii) : Z :=
  match Py.max (a_indices row) with
  | Some m => m
  | None => (-1)%Z
  end.

(** The two counter updates of a win. *)
Definition record_win (winner : string) (wins : gmap string Z)
  : option (gmap string Z) :=
  w ← wins !! winner;
  let wins := <[winner := (w + 1)%Z]> wins in
  Some (<["DAYS" := 0%Z]> wins).

(** The counter updates of a day without a win. *)
Definition update_days (wins : gmap string Z) : option (gmap string Z) :=
  d ← wins !! "DAYS";
  let wins := <["DAYS" := (d + 1)%Z]> wins in
  days ← wins !! "DAYS";
  record ← wins !! "RECORD";
  if (days >? record)%Z then
    days ← wins !! "DAYS";
    Some (<["RECORD" := days]> wins)
  else Some wins.

(** The coin toss and the clamp. *)
Definition move_boundary (boundary : Z) (dice_low : bool) : Z :=
  let new_boundary :=
    if dice_low then (boundary + 1)%Z else (boundary - 1)%Z in
  let new_boundary := Z.max new_boundary (-1) in
  Z.min new_boundary (Z.of_nat BOARD_COLS - 1).

Definition cell_for (new_boundary : Z) (i : nat) : ascii :=
  if (Z.of_nat i <=? new_boundary)%Z then "A"%char else "B"%char.

(** The loop [for i in range(BOARD_COLS): row[i] = ...]. *)
Fixpoint rewrite_row (new_boundary : Z) (indices : list nat)
    (row : list ascii) : option (list ascii) :=
  match indices with
  | [] => Some row
  | i :: rest =>
      row' ← Py.setitem row i (cell_for new_boundary i);
      rewrite_row new_boundary rest row'
  end.

(** [row_index] is the value of [random.randint(0, BOARD_ROWS - 1)] and
    [dice_low] the outcome of [random.random() < 0.5]. *)
Definition simulate_battle (row_index : nat) (dice_low : bool) : M text :=
  st <~ load_state;
  let '(wins, board) := st in
  row <~ lift (board !! row_index);
  let boundary := boundary_of row in
  if (boundary =? Z.of_nat BOARD_COLS - 1)%Z || (boundary =? -1)%Z then
    let winner : string :=
      if (boundary =? Z.of_nat BOARD_COLS - 1)%Z then "A" else "B" in
    let message :=
      text_of ("Faction " +:+ winner +:+ " wins on row " +:+
               Py.str (Z.of_nat row_index + 1) +:+ "!") in
    final_state <~ lift (generate_ascii_board board wins);
    wins <~ lift (record_win winner wins);
    let board := create_initial_board in
    reset_state <~ lift (generate_ascii_board board wins);
    let ascii_output :=
      message
      ++ text_of (String Py.LF (String Py.LF "Final board state:")
                  +:+ String Py.LF EmptyString)
      ++ final_state
      ++ text_of (String Py.LF (String Py.LF "Board reset to initial state:")
                  +:+ String Py.LF EmptyString)
      ++ reset_state in
    save_state wins board;;
    write_output ascii_output;;
    ret ascii_output
  else
    wins <~ lift (update_days wins);
    let new_boundary := move_boundary boundary dice_low in
    row <~ lift (rewrite_row new_boundary (seq 0 BOARD_COLS) row);
    (* [row] is the very list stored at [board[row_index]] *)
    let board := <[row_index := row]> board in
    ascii_output <~ lift (generate_ascii_board board wins);
    save_state wins board;;
    write_output ascii_output;;
    ret ascii_output.

(** ** Notions of the specification *)

(** The row invariant of the data model: some ['A'] cells, then some ['B']
    cells, and nothing else. *)
Definition single_boundary (row : list ascii) : Prop :=
  ∃ k m : nat, row = replicate k "A"%char ++ replicate m "B"%char.

(** A board of the fixed size. *)
Definition board_6x5 (board : list (list ascii)) : Prop :=
  length board = BOARD_ROWS ∧ Forall (λ row, length row = BOARD_COLS) board.

(** A character that ends a line when the file is read back. *)
Definition line_break (c : ascii) : bool :=
  Ascii.eqb c Py.LF || Ascii.eqb c Py.CR.

Fixpoint all_chars (p : ascii → bool) (s : string) : bool :=
  match s with
  | EmptyString => true
  | String c s' => p c && all_chars p s'
  end.

(** What [save_state] writes after the first line. *)
Fixpoint rows_text (board : list (list ascii)) : string :=
  match board with
  | [] => EmptyString
  | row :: rest =>
      (string_of_list_ascii row +:+ String Py.LF EmptyString)
      +:+ rows_text rest
  end.

(** The canonical text of a state: the counters line, then the rows. *)
Definition state_text (a b d r : Z) (board : list (list ascii)) : string :=
  counters_line a b d r +:+ rows_text board.

(** The files once the state file holds [content]. *)
Definition saved (content : string) (fs : files) : files :=
  Files (Some content) (battle_map fs).

(** No cell of the row ends a line. *)
Definition no_line_break (row : list ascii) : Prop :=
  Forall (λ c, line_break c = false) row.

(** Value of a decimal numeral read from the left with accumulator [acc]. *)
Fixpoint uint_value (d : Decimal.uint) (acc : Z) : Z :=
  match d with
  | Decimal.Nil => acc
  | Decimal.D0 d' => uint_value d' (10 * acc + 0)
  | Decimal.D1 d' => uint_value d' (10 * acc + 1)
  | Decimal.D2 d' => uint_value d' (10 * acc + 2)
  | Decimal.D3 d' => uint_value d' (10 * acc + 3)
  | Decimal.D4 d' => uint_value d' (10 * acc + 4)
  | Decimal.D5 d' => uint_value d' (10 * acc + 5)
  | Decimal.D6 d' => uint_value d' (10 * acc + 6)
  | Decimal.D7 d' => uint_value d' (10 * acc + 7)
  | Decimal.D8 d' => uint_value d' (10 * acc + 8)
  | Decimal.D9 d' => uint_value d' (10 * acc + 9)
  end%Z.

(** Character classes met when the state file is read back. *)
Definition is_digit (c : ascii) : bool :=
  match Py.digit_value c with Some _ => true | None => false end.

Definition is_numeral (c : ascii) : bool := is_digit c || Ascii.eqb c "-".

Definition not_space (c : ascii) : bool := negb (Py.isspace c).
Definition not_lf (c : ascii) : bool := negb (Ascii.eqb Py.LF c).
Definition not_cr (c : ascii) : bool := negb (Ascii.eqb c Py.CR).
Definition not_char (x c : ascii) : bool := negb (Ascii.eqb c x).

(** The counters line without its line feed. *)
Definition counters_head (a b d r : Z) : string :=
  "WINS A:" +:+ Py.str a +:+ " B:" +:+ Py.str b +:+
  " DAYS:" +:+ Py.str d +:+ " RECORD:" +:+ Py.str r.

(** ** Repeated runs *)




(** ** Sample inputs *)

Definition no_files : files := Files None None.

Definition row_of (s : string) : list ascii := list_ascii_of_string s.

(** A well-formed state followed by one more line. *)
Definition eight_lines : string :=
  "WINS A:1 B:2 DAYS:3 RECORD:4
BBBBB
BBBBB
BBBBB
BBBBB
BBBBB
BBBBB
extra
".

(** A state file whose rows hold other characters than 'A' and 'B'. *)
Definition odd_cells : string :=
  "WINS A:1 B:2 DAYS:3 RECORD:4
XYZ12
#####
AB AB
abcde
BABAB
.....
".

(** A state file with a short row. *)
Definition short_row : string :=
  "WINS A:1 B:2 DAYS:3 RECORD:4
AAABB
AAAB
AAABB
AABBB
AABBB
AABBB
".

(** A state in which row 1 is all 'A', row 2 all 'B', and row 3 open. *)
Definition sample_board : list (list ascii) :=
  [row_of "AAAAA"; row_of "BBBBB"; row_of "AABBB";
   row_of "AAABB"; row_of "AABBB"; row_of "AABBB"].

Definition sample_files : files :=
  Files (Some "WINS A:1 B:2 DAYS:3 RECORD:4
AAAAA
BBBBB
AABBB
AAABB
AABBB
AABBB
") None.

(** A state file whose first line has no tally. *)
Definition no_tally_files : files :=
  Files (Some "WINS DAYS:2 RECORD:5
AAAAA
BBBBB
AABBB
AAABB
AABBB
AABBB
") None.


(** * Properties *)

(** ** Rows and boundaries *)

Lemma row_of_length_5 (row : list ascii) :
  length row = BOARD_COLS →
  ∃ c0 c1 c2 c3 c4, row = [c0; c1; c2; c3; c4].
Proof.
  unfold BOARD_COLS.
  destruct row as [|c0 [|c1 [|c2 [|c3 [|c4 [|c5 row]]]]]]; try discriminate.
  intros _. by exists c0, c1, c2, c3, c4.
Qed.

Lemma uniform_row_boundary (c : ascii) :
  boundary_of [c; c; c; c; c] = (-1)%Z ∨ boundary_of [c; c; c; c; c] = 4%Z.
Proof.
  destruct c as [[] [] [] [] [] [] [] []]; vm_compute; auto.
Qed.

Lemma single_boundary_5 (row : list ascii) :
  length row = BOARD_COLS → single_boundary row →
  row = row_of "BBBBB" ∨ row = row_of "ABBBB" ∨ row = row_of "AABBB" ∨
  row = row_of "AAABB" ∨ row = row_of "AAAAB" ∨ row = row_of "AAAAA".
Proof.
  intros Hlen (k & m & ->).
  rewrite length_app, !length_replicate in Hlen. unfold BOARD_COLS in Hlen.
  destruct k as [|[|[|[|[|[|k]]]]]]; [..|lia];
    [assert (m = 5) as -> by lia | assert (m = 4) as -> by lia
    | assert (m = 3) as -> by lia | assert (m = 2) as -> by lia
    | assert (m = 1) as -> by lia | assert (m = 0) as -> by lia];
    simpl; tauto.
Qed.

Lemma cell_for_single_boundary (nb : Z) :
  single_boundary (cell_for nb <$> seq 0 BOARD_COLS).
Proof.
  unfold single_boundary, cell_for, BOARD_COLS. simpl.
  repeat match goal with
         | |- context [(?x <=? ?y)%Z] => destruct (Z.leb_spec x y)
         end; try lia;
    first [ by exists 0, 5 | by exists 1, 4 | by exists 2, 3
          | by exists 3, 2 | by exists 4, 1 | by exists 5, 0 ].
Qed.

Lemma rewrite_row_5 (nb : Z) (row : list ascii) :
  length row = BOARD_COLS →
  rewrite_row nb (seq 0 BOARD_COLS) row = Some (cell_for nb <$> seq 0 BOARD_COLS).
Proof.
  intros (c0 & c1 & c2 & c3 & c4 & ->)%row_of_length_5. reflexivity.
Qed.


(** C1, counterexample: the row "BBBBA" has its last 'A' in the last column,
    yet its cells are not all equal. *)
Lemma is_row_uniform_not_boundary_test :
  length (row_of "BBBBA") = BOARD_COLS ∧
  is_row_uniform (row_of "BBBBA") = false ∧
  boundary_of (row_of "BBBBA") = (Z.of_nat BOARD_COLS - 1)%Z.
Proof. by vm_compute. Qed.

(** C1, amended: for every row of 5 cells, [is_row_uniform] implies that the
    boundary is -1 or the last column index; for a row of 5 cells that is a
    prefix of 'A' cells followed by a suffix of 'B' cells, [is_row_uniform]
    holds if and only if the boundary is -1 or the last column index. *)
Theorem is_row_uniform_boundary (row : list ascii) :
  length row = BOARD_COLS →
  (is_row_uniform row = true →
   boundary_of row = (-1)%Z ∨ boundary_of row = (Z.of_nat BOARD_COLS - 1)%Z)
  ∧ (single_boundary row →
     (is_row_uniform row = true ↔
      boundary_of row = (-1)%Z ∨ boundary_of row = (Z.of_nat BOARD_COLS - 1)%Z)).
Proof.
  intros Hlen. split.
  - destruct (row_of_length_5 row Hlen) as (c0 & c1 & c2 & c3 & c4 & ->).
    unfold is_row_uniform. simpl.
    rewrite !andb_true_iff, !Ascii.eqb_eq.
    intros (_ & -> & -> & -> & -> & _). apply uniform_row_boundary.
  - intros Hsb.
    destruct (single_boundary_5 row Hlen Hsb)
      as [-> | [-> | [-> | [-> | [-> | ->]]]]];
      vm_compute; split; intros H; auto;
      try discriminate; destruct H as [H | H]; discriminate.
Qed.

Lemma is_row_uniform_boundary_witness :
  length (row_of "AAAAA") = BOARD_COLS ∧
  single_boundary (row_of "AAAAA") ∧
  (is_row_uniform (row_of "AAAAA") = true ↔
   boundary_of (row_of "AAAAA") = (-1)%Z
   ∨ boundary_of (row_of "AAAAA") = (Z.of_nat BOARD_COLS - 1)%Z).
Proof.
  assert (Hlen : length (row_of "AAAAA") = BOARD_COLS) by reflexivity.
  assert (Hsb : single_boundary (row_of "AAAAA")) by (by exists 5, 0).
  split; [exact Hlen|]. split; [exact Hsb|].
  exact (proj2 (is_row_uniform_boundary (row_of "AAAAA") Hlen) Hsb).
Defined.

(** ** Running the monad *)

Lemma bind_run {A B} (m : M A) (k : A → M B) fs x fs' :
  m fs = (Some x, fs') → bind m k fs = k x fs'.
Proof. unfold bind. by intros ->. Qed.

Lemma bind_lift {A B} (o : option A) (k : A → M B) fs x :
  o = Some x → bind (lift o) k fs = k x fs.
Proof. by intros ->. Qed.

(** ** Strings *)

Lemma append_nil_r (s : string) : s +:+ "" = s.
Proof. induction s as [|c s IH]; [done|]. unfold String.app in *. simpl. by rewrite IH. Qed.

Lemma append_cons (c : ascii) (s t : string) :
  String c s +:+ t = String c (s +:+ t).
Proof. reflexivity. Qed.

Lemma append_nil_l (s : string) : "" +:+ s = s.
Proof. reflexivity. Qed.

Lemma append_assoc (s t u : string) : (s +:+ t) +:+ u = s +:+ t +:+ u.
Proof.
  induction s as [|c s IH]; [done|]. rewrite !append_cons. by rewrite IH.
Qed.

Lemma all_chars_append p (s t : string) :
  all_chars p (s +:+ t) = all_chars p s && all_chars p t.
Proof.
  induction s as [|c s IH]; [done|].
  rewrite append_cons. simpl. rewrite IH. by rewrite andb_assoc.
Qed.

Lemma all_chars_impl (p q : ascii → bool) (s : string) :
  (∀ c, p c = true → q c = true) → all_chars p s = true → all_chars q s = true.
Proof.
  intros Hpq. induction s as [|c s IH]; [done|]. simpl.
  rewrite !andb_true_iff. intros [Hc Hs]. split; auto.
Qed.

Lemma length_list_ascii_of_string (s : string) :
  length (list_ascii_of_string s) = String.length s.
Proof. induction s as [|c s IH]; [done|]. simpl. by rewrite IH. Qed.

(** ** Writing the state file *)

Lemma write_rows_run (board : list (list ascii)) (s : string) m :
  write_rows board (Files (Some s) m)
  = (Some tt, Files (Some (s +:+ rows_text board)) m).
Proof.
  revert s. induction board as [|row rest IH]; intros s; simpl.
  - by rewrite append_nil_r.
  - unfold bind, write_state. simpl. rewrite IH. by rewrite append_assoc.
Qed.

Lemma save_state_run wins board fs a b d r :
  wins !! "A" = Some a → wins !! "B" = Some b →
  wins !! "DAYS" = Some d → wins !! "RECORD" = Some r →
  save_state wins board fs = (Some tt, saved (state_text a b d r board) fs).
Proof.
  intros Ha Hb Hd Hr. unfold save_state.
  rewrite (bind_run _ _ fs tt (Files (Some "") (battle_map fs))) by done.
  rewrite (bind_lift _ _ _ a), (bind_lift _ _ _ b),
    (bind_lift _ _ _ d), (bind_lift _ _ _ r) by done.
  erewrite bind_run by reflexivity. simpl.
  by rewrite write_rows_run.
Qed.

(** A missing counter makes [save_state] raise, after the file has been
    truncated. *)
Lemma save_state_key_error wins board fs :
  wins !! "A" = None →
  save_state wins board fs = (None, saved "" fs).
Proof. intros Ha. unfold save_state, bind, lift. simpl. by rewrite Ha. Qed.

Lemma generate_ascii_board_is_Some board wins row0 a b d r :
  board !! 0 = Some row0 →
  wins !! "A" = Some a → wins !! "B" = Some b →
  wins !! "DAYS" = Some d → wins !! "RECORD" = Some r →
  is_Some (generate_ascii_board board wins).
Proof.
  intros H0 Ha Hb Hd Hr. unfold generate_ascii_board.
  rewrite H0, Ha, Hb, Hd, Hr. simpl. eauto.
Qed.

(** ** Reading the state file *)

Lemma ensure_key_lookup key (wins : gmap string Z) :
  is_Some (ensure_key key wins !! key).
Proof.
  unfold ensure_key. destruct (wins !! key) eqn:E.
  - rewrite E. eauto.
  - rewrite lookup_insert_eq. eauto.
Qed.

Lemma ensure_key_keeps key key' (wins : gmap string Z) :
  is_Some (wins !! key') → is_Some (ensure_key key wins !! key').
Proof.
  unfold ensure_key. destruct (wins !! key) eqn:E; [done|].
  intros H. destruct (decide (key = key')) as [->|Hne].
  - rewrite lookup_insert_eq. eauto.
  - by rewrite lookup_insert_ne.
Qed.

Lemma ensure_key_present key (wins : gmap string Z) :
  is_Some (wins !! key) → ensure_key key wins = wins.
Proof. unfold ensure_key. by intros [x ->]. Qed.

Lemma default_state_shape :
  board_6x5 default_state.2
  ∧ default_state.1 !! "A" = Some 0%Z ∧ default_state.1 !! "B" = Some 0%Z
  ∧ default_state.1 !! "DAYS" = Some 0%Z
  ∧ default_state.1 !! "RECORD" = Some 0%Z.
Proof.
  split; [|by vm_compute].
  split; [reflexivity|]. simpl. repeat constructor.
Qed.

Lemma widths_checked (ls : list string) :
  existsb (λ line, negb (String.length line =? BOARD_COLS)%nat) ls = false →
  Forall (λ line, String.length line = BOARD_COLS) ls.
Proof.
  induction ls as [|l ls IH]; simpl; [constructor|].
  rewrite orb_false_iff, negb_false_iff, Nat.eqb_eq.
  intros [Hl Hls]. constructor; auto.
Qed.

Lemma widths_rejected (ls : list string) (line : string) :
  line ∈ ls → String.length line ≠ BOARD_COLS →
  existsb (λ line, negb (String.length line =? BOARD_COLS)%nat) ls = true.
Proof.
  intros Hin Hne. apply existsb_exists. exists line. split.
  - by apply list_elem_of_In.
  - apply negb_true_iff, Nat.eqb_neq, Hne.
Qed.

Lemma load_state_try_shape content wins board :
  load_state_try content = Some (wins, board) →
  board_6x5 board ∧ is_Some (wins !! "DAYS") ∧ is_Some (wins !! "RECORD").
Proof.
  unfold load_state_try.
  destruct (Nat.ltb_spec (length (file_lines content)) (1 + BOARD_ROWS))
    as [Hlt|Hge].
  { intros [= <- <-]. destruct default_state_shape as (? & ? & ? & ? & ?).
    eauto. }
  destruct (file_lines content !! 0) as [line0|]; [simpl|done].
  destruct (parse_parts _ _) as [wins0|]; [simpl|done].
  destruct (existsb _ _) eqn:Hw.
  { intros [= <- <-]. destruct default_state_shape as (? & ? & ? & ? & ?).
    eauto. }
  intros [= <- <-]. split; [split|split].
  - rewrite length_fmap, length_take, length_drop. unfold BOARD_ROWS in *. lia.
  - apply widths_checked in Hw. apply Forall_fmap.
    eapply Forall_impl; [exact Hw|]. intros l Hl. simpl.
    by rewrite length_list_ascii_of_string.
  - apply ensure_key_keeps, ensure_key_lookup.
  - apply ensure_key_lookup.
Qed.

(** [load_state] always returns a state, and leaves the files alone. *)
Lemma load_state_run fs :
  ∃ wins board,
    load_state fs = (Some (wins, board), fs)
    ∧ board_6x5 board
    ∧ is_Some (wins !! "DAYS") ∧ is_Some (wins !! "RECORD").
Proof.
  unfold load_state.
  destruct default_state_shape as (Hb & Ha & Hb' & Hd & Hr).
  destruct (battle_state fs) as [content|].
  - destruct (load_state_try content) as [[wins board]|] eqn:E.
    + exists wins, board. split; [done|]. by eapply load_state_try_shape.
    + exists default_state.1, default_state.2. rewrite Hd, Hr. eauto.
  - exists default_state.1, default_state.2. rewrite Hd, Hr. eauto.
Qed.

Lemma load_state_inv fs wins board fs' :
  load_state fs = (Some (wins, board), fs') →
  fs' = fs ∧ board_6x5 board
  ∧ is_Some (wins !! "DAYS") ∧ is_Some (wins !! "RECORD").
Proof.
  destruct (load_state_run fs) as (w & b & -> & ? & ? & ?).
  by intros [= <- <- <-].
Qed.

Lemma parse_parts_None parts part wins :
  part ∈ parts → parse_part part = None → parse_parts parts wins = None.
Proof.
  revert wins. induction parts as [|p parts IH]; intros wins Hin Hbad.
  - by apply elem_of_nil in Hin.
  - simpl. apply elem_of_cons in Hin as [->|Hin].
    + by rewrite Hbad.
    + destruct (parse_part p); simpl; eauto.
Qed.

Lemma parse_parts_is_Some parts wins :
  Forall (λ part, is_Some (parse_part part)) parts →
  is_Some (parse_parts parts wins).
Proof.
  revert wins. induction parts as [|p parts IH]; intros wins Hall; simpl.
  - eauto.
  - apply Forall_cons in Hall as [[kn ->] Hall]. simpl. by apply IH.
Qed.

Lemma widths_accepted (ls : list string) :
  Forall (λ line, String.length line = BOARD_COLS) ls →
  existsb (λ line, negb (String.length line =? BOARD_COLS)%nat) ls = false.
Proof.
  induction 1 as [|l ls Hl _ IH]; simpl; [done|].
  rewrite IH, orb_false_r. by apply negb_false_iff, Nat.eqb_eq.
Qed.

(** C3, counterexample: a file of eight lines has a wrong line count, and
    [load_state] returns the board it holds, not the default one. *)
Lemma load_state_eight_lines :
  length (file_lines eight_lines) ≠ (1 + BOARD_ROWS)%nat
  ∧ ∃ wins,
      load_state (Files (Some eight_lines) None)
      = (Some (wins, replicate 6 (row_of "BBBBB")),
         Files (Some eight_lines) None)
      ∧ (wins, replicate 6 (row_of "BBBBB")) ≠ default_state.
Proof.
  split; [by vm_compute|].
  eexists. split; [by vm_compute|].
  intros H. apply (f_equal snd) in H. vm_compute in H. discriminate.
Qed.

(** C3, amended: for every content of the state file that has fewer than 7
    lines, or in which one of the lines 2 to 7 is not 5 characters wide, or
    in which a token after the first one on line 1 is not of the form
    key:integer, [load_state] returns the fresh default state; it raises no
    error and changes no file. *)
Theorem load_state_falls_back fs content :
  battle_state fs = Some content →
  ((length (file_lines content) < 1 + BOARD_ROWS)%nat
   ∨ (∃ line, line ∈ take BOARD_ROWS (drop 1 (file_lines content))
              ∧ String.length line ≠ BOARD_COLS)
   ∨ (∃ line0 part, file_lines content !! 0%nat = Some line0
                    ∧ part ∈ drop 1 (Py.split line0)
                    ∧ parse_part part = None)) →
  load_state fs = (Some default_state, fs).
Proof.
  intros Hc Hbad. unfold load_state. rewrite Hc.
  destruct (load_state_try content) as [st|] eqn:E; [|done].
  revert E. unfold load_state_try.
  destruct (Nat.ltb_spec (length (file_lines content)) (1 + BOARD_ROWS))
    as [Hlt|Hge]; [by intros [= <-]|].
  destruct Hbad as [Hlt | [(line & Hin & Hw) | (line0 & part & H0 & Hin & Hp)]].
  - lia.
  - destruct (file_lines content !! 0%nat) as [l0|]; [simpl|done].
    destruct (parse_parts _ _) as [wins0|]; [simpl|done].
    rewrite (widths_rejected _ line Hin Hw). by intros [= <-].
  - rewrite H0. simpl. by rewrite (parse_parts_None _ part ∅ Hin Hp).
Qed.

Lemma load_state_falls_back_witness :
  load_state (Files (Some short_row) None)
  = (Some default_state, Files (Some short_row) None).
Proof.
  apply (load_state_falls_back (Files (Some short_row) None) short_row).
  - reflexivity.
  - right. left. exists "AAAB". split; [|by vm_compute].
    assert (E : take BOARD_ROWS (drop 1 (file_lines short_row))
                = ["AAABB"; "AAAB"; "AAABB"; "AABBB"; "AABBB"; "AABBB"])
      by (by vm_compute).
    rewrite E, !elem_of_cons. auto.
Defined.

(** C10: whenever every token after the first one on line 1 parses and the
    next 6 lines are 5 characters wide, [load_state] returns the parsed
    counters and these 6 lines as the board, whatever their characters. *)
Theorem load_state_accepts_any_cells fs content line0 rows rest :
  battle_state fs = Some content →
  file_lines content = line0 :: rows ++ rest →
  length rows = BOARD_ROWS →
  Forall (λ line, String.length line = BOARD_COLS) rows →
  Forall (λ part, is_Some (parse_part part)) (drop 1 (Py.split line0)) →
  ∃ wins0,
    parse_parts (drop 1 (Py.split line0)) ∅ = Some wins0
    ∧ load_state fs
      = (Some (ensure_key "RECORD" (ensure_key "DAYS" wins0),
               list_ascii_of_string <$> rows), fs).
Proof.
  intros Hc Hlines Hlen Hw Hparts.
  destruct (parse_parts_is_Some _ ∅ Hparts) as [wins0 Hwins0].
  exists wins0. split; [done|].
  unfold load_state. rewrite Hc. unfold load_state_try. rewrite Hlines.
  destruct (Nat.ltb_spec (length (line0 :: rows ++ rest)) (1 + BOARD_ROWS))
    as [Hlt|Hge].
  { simpl in Hlt. rewrite length_app in Hlt. lia. }
  simpl. rewrite Hwins0. simpl. rewrite drop_0.
  rewrite <- Hlen, take_app_length.
  by rewrite (widths_accepted _ Hw).
Qed.

Lemma load_state_accepts_any_cells_witness :
  ∃ wins0,
    parse_parts (drop 1 (Py.split "WINS A:1 B:2 DAYS:3 RECORD:4")) ∅
    = Some wins0
    ∧ load_state (Files (Some odd_cells) None)
      = (Some (ensure_key "RECORD" (ensure_key "DAYS" wins0),
               list_ascii_of_string
               <$> ["XYZ12"; "#####"; "AB AB"; "abcde"; "BABAB"; "....."]),
         Files (Some odd_cells) None).
Proof.
  apply (load_state_accepts_any_cells (Files (Some odd_cells) None)
           odd_cells "WINS A:1 B:2 DAYS:3 RECORD:4"
           ["XYZ12"; "#####"; "AB AB"; "abcde"; "BABAB"; "....."] []).
  - reflexivity.
  - by vm_compute.
  - reflexivity.
  - repeat constructor.
  - vm_compute. repeat constructor; eauto.
Defined.

(** ** Decimal numerals: [int(str(n)) = n] *)

Lemma digits_go_uint (d : Decimal.uint) (acc : Z) :
  Py.digits_go acc false (NilEmpty.string_of_uint d) = Some (uint_value d acc).
Proof.
  revert acc. induction d as [|d IH|d IH|d IH|d IH|d IH|d IH|d IH|d IH|d IH|d IH];
    intros acc; [reflexivity|..]; apply IH.
Qed.

Lemma digits_uint (d : Decimal.uint) :
  d ≠ Decimal.Nil →
  Py.digits (NilEmpty.string_of_uint d) = Some (uint_value d 0).
Proof.
  intros Hd. rewrite <- digits_go_uint. destruct d; [done|..]; reflexivity.
Qed.

Lemma uint_value_of_uint_acc (d : Decimal.uint) (p : positive) :
  Z.pos (Pos.of_uint_acc d p) = uint_value d (Z.pos p).
Proof.
  revert p. induction d as [|d IH|d IH|d IH|d IH|d IH|d IH|d IH|d IH|d IH|d IH];
    intros p; simpl; [reflexivity|..]; rewrite IH; f_equal; lia.
Qed.

Lemma uint_value_of_uint (d : Decimal.uint) :
  Z.of_N (Pos.of_uint d) = uint_value d 0.
Proof.
  induction d as [|d IH|d IH|d IH|d IH|d IH|d IH|d IH|d IH|d IH|d IH];
    simpl; [reflexivity|exact IH|..]; apply uint_value_of_uint_acc.
Qed.

Lemma uint_digits (d : Decimal.uint) :
  all_chars is_digit (NilEmpty.string_of_uint d) = true.
Proof. induction d; simpl; auto. Qed.

Lemma to_uint_not_nil (p : positive) : Pos.to_uint p ≠ Decimal.Nil.
Proof.
  intros H. pose proof (DecimalPos.Unsigned.of_to p) as E.
  rewrite H in E. discriminate.
Qed.

Lemma str_numeral (n : Z) : all_chars is_numeral (Py.str n) = true.
Proof.
  assert (Hd : ∀ d, all_chars is_numeral (NilEmpty.string_of_uint d) = true).
  { intros d. eapply all_chars_impl; [|apply uint_digits].
    intros c Hc. unfold is_numeral. by rewrite Hc. }
  unfold Py.str. destruct n as [|p|p]; simpl; [reflexivity|..].
  - pose proof (to_uint_not_nil p). unfold NilZero.string_of_uint.
    destruct (Pos.to_uint p) eqn:E; [done|..]; rewrite <- E; apply Hd.
  - pose proof (to_uint_not_nil p). unfold NilZero.string_of_uint.
    destruct (Pos.to_uint p) eqn:E; [done|..]; rewrite <- E; apply Hd.
Qed.

Lemma numeral_not_space c : is_numeral c = true → not_space c = true.
Proof. destruct c as [[] [] [] [] [] [] [] []]; by vm_compute. Qed.

Lemma numeral_not_colon c : is_numeral c = true → not_char ":" c = true.
Proof. destruct c as [[] [] [] [] [] [] [] []]; by vm_compute. Qed.

Lemma not_space_not_lf c : not_space c = true → not_lf c = true.
Proof. destruct c as [[] [] [] [] [] [] [] []]; by vm_compute. Qed.

Lemma not_space_not_cr c : not_space c = true → not_cr c = true.
Proof. destruct c as [[] [] [] [] [] [] [] []]; by vm_compute. Qed.

Lemma rstrip_id p (s : string) :
  all_chars (λ c, negb (p c)) s = true → Py.rstrip p s = s.
Proof.
  induction s as [|c s IH]; [done|]. simpl.
  rewrite andb_true_iff, negb_true_iff. intros [Hc Hs].
  rewrite (IH Hs), Hc. by destruct s.
Qed.

Lemma strip_id (s : string) :
  all_chars not_space s = true → Py.strip s = s.
Proof.
  intros Hs. unfold Py.strip.
  assert (Py.lstrip Py.isspace s = s) as ->.
  { destruct s as [|c s]; [done|]. simpl in *.
    apply andb_true_iff in Hs as [Hc _].
    apply negb_true_iff in Hc. by rewrite Hc. }
  by apply rstrip_id.
Qed.

Lemma uint_not_space (d : Decimal.uint) :
  all_chars not_space (NilEmpty.string_of_uint d) = true.
Proof.
  eapply all_chars_impl; [|apply uint_digits].
  intros c Hc. apply numeral_not_space. unfold is_numeral. by rewrite Hc.
Qed.

Lemma int_uint (d : Decimal.uint) :
  d ≠ Decimal.Nil →
  Py.int (NilEmpty.string_of_uint d) = Some (uint_value d 0).
Proof.
  intros Hd. unfold Py.int. rewrite strip_id by apply uint_not_space.
  rewrite <- (digits_uint d Hd). destruct d; [done|..]; reflexivity.
Qed.

Lemma int_neg_uint (d : Decimal.uint) :
  d ≠ Decimal.Nil →
  Py.int (String "-" (NilEmpty.string_of_uint d)) = Some (- uint_value d 0)%Z.
Proof.
  intros Hd. unfold Py.int. rewrite strip_id.
  - change (Z.opp <$> Py.digits (NilEmpty.string_of_uint d)
            = Some (- uint_value d 0)%Z).
    by rewrite (digits_uint d Hd).
  - simpl. apply uint_not_space.
Qed.

Lemma string_of_uint_not_nil (d : Decimal.uint) :
  d ≠ Decimal.Nil → NilZero.string_of_uint d = NilEmpty.string_of_uint d.
Proof. intros Hd. unfold NilZero.string_of_uint. by destruct d. Qed.

Lemma uint_value_to_uint (p : positive) :
  uint_value (Pos.to_uint p) 0 = Z.pos p.
Proof.
  rewrite <- uint_value_of_uint. by rewrite DecimalPos.Unsigned.of_to.
Qed.

Lemma int_str (n : Z) : Py.int (Py.str n) = Some n.
Proof.
  unfold Py.str. destruct n as [|p|p]; [reflexivity|..].
  - change (Py.int (NilZero.string_of_uint (Pos.to_uint p)) = Some (Z.pos p)).
    rewrite string_of_uint_not_nil, int_uint by apply to_uint_not_nil.
    by rewrite uint_value_to_uint.
  - change (Py.int (String "-" (NilZero.string_of_uint (Pos.to_uint p)))
            = Some (Z.neg p)).
    rewrite string_of_uint_not_nil, int_neg_uint by apply to_uint_not_nil.
    by rewrite uint_value_to_uint.
Qed.

(** ** Reading back what [save_state] wrote *)

Lemma universal_newlines_id (s : string) :
  all_chars not_cr s = true → Py.universal_newlines s = s.
Proof.
  induction s as [|c s IH]; [done|]. simpl.
  rewrite andb_true_iff. unfold not_cr at 1. rewrite negb_true_iff.
  intros [-> Hs]. by rewrite (IH Hs).
Qed.

Lemma readlines_line (l rest : string) :
  all_chars not_lf l = true →
  Py.readlines (l +:+ String Py.LF rest)
  = (l +:+ String Py.LF "") :: Py.readlines rest.
Proof.
  induction l as [|c l IH]; [done|]. rewrite !append_cons. simpl.
  rewrite andb_true_iff. unfold not_lf at 1. rewrite negb_true_iff.
  intros [Hc Hl]. rewrite (IH Hl).
  rewrite Ascii.eqb_sym in Hc. by rewrite Hc.
Qed.

Lemma rstrip_line (l : string) :
  all_chars not_lf l = true →
  Py.rstrip (Ascii.eqb Py.LF) (l +:+ String Py.LF "") = l.
Proof.
  induction l as [|c l IH]; [done|]. rewrite append_cons.
  change (all_chars not_lf (String c l)) with (not_lf c && all_chars not_lf l).
  rewrite andb_true_iff. unfold not_lf at 1. rewrite negb_true_iff.
  intros [Hc Hl].
  change (Py.rstrip (Ascii.eqb Py.LF) (String c (l +:+ String Py.LF "")))
    with (match Py.rstrip (Ascii.eqb Py.LF) (l +:+ String Py.LF "") with
          | EmptyString =>
              if Ascii.eqb Py.LF c then EmptyString else String c EmptyString
          | t => String c t
          end).
  rewrite (IH Hl), Hc. by destruct l.
Qed.

Lemma split_go_token (cur tok rest : string) :
  all_chars not_space tok = true →
  Py.split_go cur (tok +:+ rest) = Py.split_go (cur +:+ tok) rest.
Proof.
  revert cur. induction tok as [|c tok IH]; intros cur.
  - by rewrite append_nil_r.
  - rewrite append_cons. simpl.
    rewrite andb_true_iff. unfold not_space at 1. rewrite negb_true_iff.
    intros [-> Htok]. rewrite (IH _ Htok). by rewrite append_assoc.
Qed.

(** A token, a blank, and the rest of the line. *)
Lemma split_token_space (tok rest : string) :
  tok ≠ "" → all_chars not_space tok = true →
  Py.split (tok +:+ String " " rest) = tok :: Py.split rest.
Proof.
  intros Hne Htok. unfold Py.split. rewrite split_go_token by done.
  rewrite append_nil_l. simpl. by destruct tok.
Qed.

Lemma split_token_end (tok : string) :
  tok ≠ "" → all_chars not_space tok = true → Py.split tok = [tok].
Proof.
  intros Hne Htok. unfold Py.split.
  rewrite <- (append_nil_r tok) at 1. rewrite split_go_token by done.
  rewrite append_nil_l. simpl. by destruct tok.
Qed.

Lemma split_sep_go_piece sep (cur s : string) :
  all_chars (not_char sep) s = true →
  Py.split_sep_go sep cur s = [cur +:+ s].
Proof.
  revert cur. induction s as [|c s IH]; intros cur; simpl.
  - by rewrite append_nil_r.
  - rewrite andb_true_iff. unfold not_char at 1. rewrite negb_true_iff.
    intros [-> Hs]. rewrite (IH _ Hs). by rewrite append_assoc.
Qed.

Lemma split_sep_go_key sep (cur key rest : string) :
  all_chars (not_char sep) key = true →
  Py.split_sep_go sep cur (key +:+ String sep rest)
  = (cur +:+ key) :: Py.split_sep_go sep "" rest.
Proof.
  revert cur. induction key as [|c key IH]; intros cur.
  - intros _. rewrite append_nil_l, append_nil_r. simpl.
    by rewrite Ascii.eqb_refl.
  - rewrite append_cons. simpl.
    rewrite andb_true_iff. unfold not_char at 1. rewrite negb_true_iff.
    intros [-> Hkey]. rewrite (IH _ Hkey). by rewrite append_assoc.
Qed.

Lemma parse_part_counter (key : string) (n : Z) :
  all_chars (not_char ":") key = true →
  parse_part (key +:+ String ":" (Py.str n)) = Some (key, n).
Proof.
  intros Hkey. unfold parse_part, Py.split_sep.
  rewrite split_sep_go_key by done.
  rewrite split_sep_go_piece
    by (eapply all_chars_impl; [apply numeral_not_colon|apply str_numeral]).
  rewrite !append_nil_l. by rewrite int_str.
Qed.

Lemma counter_token (key : string) (n : Z) :
  key ≠ "" → all_chars not_space key = true →
  key +:+ String ":" (Py.str n) ≠ ""
  ∧ all_chars not_space (key +:+ String ":" (Py.str n)) = true.
Proof.
  intros Hne Hkey. split; [by destruct key|].
  rewrite all_chars_append, Hkey. simpl.
  eapply all_chars_impl; [apply numeral_not_space|apply str_numeral].
Qed.

Lemma split_counters_head (a b d r : Z) :
  Py.split (counters_head a b d r)
  = ["WINS"; "A:" +:+ Py.str a; "B:" +:+ Py.str b;
     "DAYS:" +:+ Py.str d; "RECORD:" +:+ Py.str r].
Proof.
  change (counters_head a b d r) with
    ("WINS" +:+ String " "
       (("A" +:+ String ":" (Py.str a)) +:+ String " "
          (("B" +:+ String ":" (Py.str b)) +:+ String " "
             (("DAYS" +:+ String ":" (Py.str d)) +:+ String " "
                ("RECORD" +:+ String ":" (Py.str r)))))).
  rewrite split_token_space by done.
  destruct (counter_token "A" a) as [? ?]; [done..|].
  destruct (counter_token "B" b) as [? ?]; [done..|].
  destruct (counter_token "DAYS" d) as [? ?]; [done..|].
  destruct (counter_token "RECORD" r) as [? ?]; [done..|].
  rewrite !split_token_space by done.
  by rewrite split_token_end by done.
Qed.

Lemma parse_counters_head (a b d r : Z) :
  parse_parts (drop 1 (Py.split (counters_head a b d r))) ∅
  = Some (counters a b d r).
Proof.
  rewrite split_counters_head. simpl.
  change ("A:" +:+ Py.str a) with ("A" +:+ String ":" (Py.str a)).
  change ("B:" +:+ Py.str b) with ("B" +:+ String ":" (Py.str b)).
  change ("DAYS:" +:+ Py.str d) with ("DAYS" +:+ String ":" (Py.str d)).
  change ("RECORD:" +:+ Py.str r) with ("RECORD" +:+ String ":" (Py.str r)).
  by rewrite !parse_part_counter by done.
Qed.

Lemma numeral_not_lf c : is_numeral c = true → not_lf c = true.
Proof. intros H. by apply not_space_not_lf, numeral_not_space. Qed.

Lemma numeral_not_cr c : is_numeral c = true → not_cr c = true.
Proof. intros H. by apply not_space_not_cr, numeral_not_space. Qed.

Lemma counters_head_not_lf (a b d r : Z) :
  all_chars not_lf (counters_head a b d r) = true.
Proof.
  unfold counters_head. rewrite !all_chars_append.
  by rewrite !(all_chars_impl _ _ _ numeral_not_lf (str_numeral _)).
Qed.

Lemma counters_head_not_cr (a b d r : Z) :
  all_chars not_cr (counters_head a b d r) = true.
Proof.
  unfold counters_head. rewrite !all_chars_append.
  by rewrite !(all_chars_impl _ _ _ numeral_not_cr (str_numeral _)).
Qed.

Lemma state_text_lines (a b d r : Z) (board : list (list ascii)) :
  state_text a b d r board
  = counters_head a b d r +:+ String Py.LF (rows_text board).
Proof.
  unfold state_text, counters_line, counters_head.
  by rewrite !append_assoc.
Qed.

Lemma row_not_lf (row : list ascii) :
  no_line_break row → all_chars not_lf (string_of_list_ascii row) = true.
Proof.
  induction 1 as [|c row Hc _ IH]; [done|]. simpl. rewrite IH, andb_true_r.
  unfold line_break in Hc. apply orb_false_iff in Hc as [Hc _].
  unfold not_lf. by rewrite Ascii.eqb_sym, Hc.
Qed.

Lemma row_not_cr (row : list ascii) :
  no_line_break row → all_chars not_cr (string_of_list_ascii row) = true.
Proof.
  induction 1 as [|c row Hc _ IH]; [done|]. simpl. rewrite IH, andb_true_r.
  unfold line_break in Hc. apply orb_false_iff in Hc as [_ Hc].
  unfold not_cr. by rewrite Hc.
Qed.

Lemma rows_text_not_cr (board : list (list ascii)) :
  Forall no_line_break board → all_chars not_cr (rows_text board) = true.
Proof.
  induction 1 as [|row board Hrow _ IH]; [done|]. simpl.
  rewrite !all_chars_append, IH, (row_not_cr _ Hrow). reflexivity.
Qed.

Lemma readlines_rows (board : list (list ascii)) :
  Forall no_line_break board →
  Py.rstrip (Ascii.eqb Py.LF) <$> Py.readlines (rows_text board)
  = string_of_list_ascii <$> board.
Proof.
  induction 1 as [|row board Hrow _ IH]; [done|].
  change (rows_text (row :: board)) with
    ((string_of_list_ascii row +:+ String Py.LF "") +:+ rows_text board).
  rewrite append_assoc, append_cons, append_nil_l.
  rewrite readlines_line by by apply row_not_lf.
  rewrite fmap_cons, IH, rstrip_line by by apply row_not_lf. done.
Qed.

Lemma file_lines_state_text (a b d r : Z) (board : list (list ascii)) :
  Forall no_line_break board →
  file_lines (state_text a b d r board)
  = counters_head a b d r :: (string_of_list_ascii <$> board).
Proof.
  intros Hboard. unfold file_lines. rewrite universal_newlines_id.
  - rewrite state_text_lines, readlines_line by apply counters_head_not_lf.
    rewrite fmap_cons, readlines_rows, rstrip_line
      by (done || apply counters_head_not_lf). done.
  - rewrite state_text_lines, all_chars_append, counters_head_not_cr.
    simpl. by apply rows_text_not_cr.
Qed.

Lemma counters_lookups (a b d r : Z) :
  counters a b d r !! "A" = Some a ∧ counters a b d r !! "B" = Some b
  ∧ counters a b d r !! "DAYS" = Some d ∧ counters a b d r !! "RECORD" = Some r.
Proof. unfold counters. repeat split; by simplify_map_eq. Qed.

(** The text of a 6x5 board without line breaks reads back as the state it
    was written from. *)
Lemma load_state_try_state_text (a b d r : Z) (board : list (list ascii)) :
  board_6x5 board → Forall no_line_break board →
  load_state_try (state_text a b d r board) = Some (counters a b d r, board).
Proof.
  intros [Hrows Hcols] Hboard. unfold load_state_try.
  rewrite file_lines_state_text by done.
  destruct (Nat.ltb_spec
              (length (counters_head a b d r :: (string_of_list_ascii <$> board)))
              (1 + BOARD_ROWS)) as [Hlt|_].
  { simpl in Hlt. rewrite length_fmap in Hlt. lia. }
  cbn [lookup list_lookup mbind option_bind].
  rewrite parse_counters_head.
  cbn [lookup list_lookup mbind option_bind].
  change (drop 1 (counters_head a b d r :: (string_of_list_ascii <$> board)))
    with (string_of_list_ascii <$> board).
  destruct (counters_lookups a b d r) as (_ & _ & Hd & Hr).
  rewrite (ensure_key_present "DAYS") by (rewrite Hd; eauto).
  rewrite (ensure_key_present "RECORD") by (rewrite Hr; eauto).
  rewrite take_ge by (rewrite length_fmap; lia).
  rewrite widths_accepted.
  - rewrite <- list_fmap_compose. do 2 f_equal.
    rewrite <- (list_fmap_id board) at 2.
    apply list_fmap_ext. intros i row _. simpl.
    apply list_ascii_of_string_of_list_ascii.
  - apply Forall_fmap. eapply Forall_impl; [exact Hcols|]. intros row Hrow.
    simpl. by rewrite <- length_list_ascii_of_string,
      list_ascii_of_string_of_list_ascii.
Qed.

Lemma load_state_saved (a b d r : Z) (board : list (list ascii)) m :
  board_6x5 board → Forall no_line_break board →
  load_state (Files (Some (state_text a b d r board)) m)
  = (Some (counters a b d r, board),
     Files (Some (state_text a b d r board)) m).
Proof.
  intros H6 Hnl. unfold load_state. simpl.
  by rewrite load_state_try_state_text.
Qed.




(** ** The battle step *)

Lemma update_days_run (wins : gmap string Z) (d r : Z) :
  wins !! "DAYS" = Some d → wins !! "RECORD" = Some r →
  update_days wins
  = Some (if (d + 1 >? r)%Z
          then <["RECORD" := (d + 1)%Z]> (<["DAYS" := (d + 1)%Z]> wins)
          else <["DAYS" := (d + 1)%Z]> wins).
Proof.
  intros Hd Hr. unfold update_days. rewrite Hd.
  cbn [mbind option_bind]. rewrite lookup_insert_eq.
  cbn [mbind option_bind]. rewrite lookup_insert_ne, Hr by done.
  cbn [mbind option_bind].
  by destruct (d + 1 >? r)%Z.
Qed.

(** The end of both branches: save, write the output file, return. *)
Lemma finish_run wins board out fs a b d r :
  wins !! "A" = Some a → wins !! "B" = Some b →
  wins !! "DAYS" = Some d → wins !! "RECORD" = Some r →
  (save_state wins board;; write_output out;; ret out) fs
  = (Some out, Files (Some (state_text a b d r board)) (Some out)).
Proof.
  intros Ha Hb Hd Hr.
  by rewrite (bind_run _ _ _ _ _ (save_state_run wins board fs a b d r Ha Hb Hd Hr)).
Qed.

Lemma simulate_battle_win_run fs i dice wins board row (winner : string)
    wins' a b d r :
  load_state fs = (Some (wins, board), fs) →
  board !! i = Some row →
  (boundary_of row = 4%Z ∧ winner = "A")
  ∨ (boundary_of row = (-1)%Z ∧ winner = "B") →
  is_Some (wins !! "A") → is_Some (wins !! "B") →
  record_win winner wins = Some wins' →
  wins' !! "A" = Some a → wins' !! "B" = Some b →
  wins' !! "DAYS" = Some d → wins' !! "RECORD" = Some r →
  ∃ out,
    simulate_battle i dice fs
    = (Some out,
       Files (Some (state_text a b d r create_initial_board)) (Some out)).
Proof.
  intros Hload Hrow Hwin [a0 Ha0] [b0 Hb0] Hrec Ha Hb Hd Hr.
  destruct (load_state_inv _ _ _ _ Hload) as (_ & [H6 _] & [d0 Hd0] & [r0 Hr0]).
  assert (is_Some (board !! 0)) as [row0 Hrow0].
  { apply lookup_lt_is_Some. rewrite H6. unfold BOARD_ROWS. lia. }
  destruct (generate_ascii_board_is_Some board wins row0 a0 b0 d0 r0)
    as [final Hfinal]; [done..|].
  destruct (generate_ascii_board_is_Some create_initial_board wins'
              (row_of "AAABB") a b d r) as [reset Hreset]; [done..|].
  unfold simulate_battle.
  rewrite (bind_run _ _ _ _ _ Hload). cbv beta iota.
  rewrite (bind_lift _ _ _ row Hrow). cbv zeta.
  destruct Hwin as [[Hbd ->] | [Hbd ->]]; rewrite Hbd;
    [ change ((4 =? Z.of_nat BOARD_COLS - 1)%Z) with true
    | change ((-1 =? Z.of_nat BOARD_COLS - 1)%Z) with false;
      change ((-1 =? -1)%Z) with true ];
    cbn [orb]; cbv iota;
    rewrite (bind_lift _ _ _ final Hfinal), (bind_lift _ _ _ wins' Hrec),
      (bind_lift _ _ _ reset Hreset);
    eexists; by apply finish_run.
Qed.

Lemma update_days_lookups (wins : gmap string Z) (a b d r : Z) :
  wins !! "A" = Some a → wins !! "B" = Some b →
  wins !! "DAYS" = Some d → wins !! "RECORD" = Some r →
  ∃ wins',
    update_days wins = Some wins'
    ∧ wins' !! "A" = Some a ∧ wins' !! "B" = Some b
    ∧ wins' !! "DAYS" = Some (d + 1)%Z
    ∧ wins' !! "RECORD" = Some (if (d + 1 >? r)%Z then (d + 1)%Z else r)
    ∧ ∀ key, key ≠ "DAYS" → key ≠ "RECORD" → wins' !! key = wins !! key.
Proof.
  intros Ha Hb Hd Hr. eexists. split; [by apply update_days_run|].
  destruct (d + 1 >? r)%Z; repeat split; intros; by simplify_map_eq.
Qed.

Lemma simulate_battle_move_run fs i dice wins wins' board row a b d r :
  load_state fs = (Some (wins, board), fs) →
  board !! i = Some row →
  boundary_of row ≠ 4%Z → boundary_of row ≠ (-1)%Z →
  update_days wins = Some wins' →
  wins' !! "A" = Some a → wins' !! "B" = Some b →
  wins' !! "DAYS" = Some d → wins' !! "RECORD" = Some r →
  ∃ out,
    simulate_battle i dice fs
    = (Some out,
       Files (Some (state_text a b d r
                      (<[i := cell_for (move_boundary (boundary_of row) dice)
                              <$> seq 0 BOARD_COLS]> board)))
             (Some out)).
Proof.
  intros Hload Hrow Hn4 Hn1 Hupd Ha Hb Hd Hr.
  destruct (load_state_inv _ _ _ _ Hload) as (_ & [H6 H5] & _ & _).
  assert (length row = BOARD_COLS) as Hlen.
  { by eapply (Forall_lookup_1 _ _ _ _ H5). }
  set (row' := cell_for (move_boundary (boundary_of row) dice)
               <$> seq 0 BOARD_COLS).
  assert (is_Some (<[i := row']> board !! 0)) as [row0 Hrow0].
  { apply lookup_lt_is_Some. rewrite length_insert, H6. unfold BOARD_ROWS. lia. }
  destruct (generate_ascii_board_is_Some (<[i := row']> board) wins'
              row0 a b d r) as [out Hout]; [done..|].
  exists out. unfold simulate_battle.
  rewrite (bind_run _ _ _ _ _ Hload). cbv beta iota.
  rewrite (bind_lift _ _ _ row Hrow). cbv zeta.
  change (Z.of_nat BOARD_COLS - 1)%Z with 4%Z.
  apply Z.eqb_neq in Hn4, Hn1. rewrite Hn4, Hn1. cbn [orb]. cbv iota.
  rewrite (bind_lift _ _ _ wins' Hupd).
  rewrite (bind_lift _ _ _ row' (rewrite_row_5 _ row Hlen)).
  rewrite (bind_lift _ _ _ out Hout).
  by apply finish_run.
Qed.

Lemma record_win_lookups (winner : string) (wins : gmap string Z) (w : Z) :
  wins !! winner = Some w → winner ≠ "DAYS" →
  record_win winner wins = Some (<["DAYS" := 0%Z]> (<[winner := (w + 1)%Z]> wins))
  ∧ (<["DAYS" := 0%Z]> (<[winner := (w + 1)%Z]> wins)) !! winner = Some (w + 1)%Z
  ∧ (<["DAYS" := 0%Z]> (<[winner := (w + 1)%Z]> wins)) !! "DAYS" = Some 0%Z
  ∧ ∀ key, key ≠ winner → key ≠ "DAYS" →
      (<["DAYS" := 0%Z]> (<[winner := (w + 1)%Z]> wins)) !! key = wins !! key.
Proof.
  intros Hw Hne. unfold record_win. rewrite Hw.
  repeat split; intros; by simplify_map_eq.
Qed.

Lemma initial_board_shape :
  board_6x5 create_initial_board
  ∧ Forall no_line_break create_initial_board
  ∧ Forall single_boundary create_initial_board.
Proof.
  split; [split; [reflexivity|by repeat constructor]|].
  split; [by repeat constructor|].
  repeat constructor; first [by exists 3, 2 | by exists 2, 3].
Qed.

Lemma single_boundary_no_line_break (row : list ascii) :
  single_boundary row → no_line_break row.
Proof.
  intros (k & m & ->). apply Forall_app. split; by apply Forall_replicate.
Qed.


Lemma sample_files_load :
  load_state sample_files = (Some (counters 1 2 3 4, sample_board), sample_files).
Proof. by vm_compute. Qed.




Lemma board_6x5_insert (board : list (list ascii)) (i : nat) (row : list ascii) :
  board_6x5 board → length row = BOARD_COLS → board_6x5 (<[i := row]> board).
Proof.
  intros [H6 H5] Hrow. split; [by rewrite length_insert|].
  by apply Forall_insert.
Qed.



(** C7: for every loaded state, once the branch without a win has updated
    the counters, DAYS is at most RECORD. *)
Theorem days_le_record_after_update fs (wins : gmap string Z)
    (board : list (list ascii)) :
  load_state fs = (Some (wins, board), fs) →
  ∃ wins' days record,
    update_days wins = Some wins'
    ∧ wins' !! "DAYS" = Some days
    ∧ wins' !! "RECORD" = Some record
    ∧ (days ≤ record)%Z.
Proof.
  intros Hload.
  destruct (load_state_inv _ _ _ _ Hload) as (_ & _ & [d Hd] & [r Hr]).
  rewrite (update_days_run wins d r Hd Hr).
  destruct (Z.gtb_spec (d + 1) r) as [Hgt|Hle].
  - exists (<["RECORD" := (d + 1)%Z]> (<["DAYS" := (d + 1)%Z]> wins)),
      (d + 1)%Z, (d + 1)%Z.
    repeat split; [by simplify_map_eq..|lia].
  - exists (<["DAYS" := (d + 1)%Z]> wins), (d + 1)%Z, r.
    repeat split; [by simplify_map_eq..|lia].
Qed.

Lemma days_le_record_after_update_witness :
  ∃ wins' days record,
    update_days (counters 1 2 3 4) = Some wins'
    ∧ wins' !! "DAYS" = Some days
    ∧ wins' !! "RECORD" = Some record
    ∧ (days ≤ record)%Z.
Proof.
  apply (days_le_record_after_update sample_files (counters 1 2 3 4)
           sample_board).
  exact sample_files_load.
Defined.



(** C9: the default board has "AAABB" at row 0, with boundary 2.  From the
    default state, a step on row 0 with a +1 move saves the row "AAAAB"; a
    second such step saves "AAAAA"; the third step on that row declares
    faction A the winner, adds 1 to its tally and resets the board. *)
Theorem default_row_three_moves :
  create_initial_board !! 0%nat = Some (row_of "AAABB")
  ∧ boundary_of (row_of "AAABB") = 2%Z
  ∧ let step1 := simulate_battle 0 true no_files in
    let step2 := simulate_battle 0 true step1.2 in
    let step3 := simulate_battle 0 true step2.2 in
    is_Some step1.1
    ∧ battle_state step1.2
      = Some (state_text 0 0 1 1
                (<[0%nat := row_of "AAAAB"]> create_initial_board))
    ∧ is_Some step2.1
    ∧ battle_state step2.2
      = Some (state_text 0 0 2 2
                (<[0%nat := row_of "AAAAA"]> create_initial_board))
    ∧ (take 24 <$> step3.1) = Some (text_of "Faction A wins on row 1!")
    ∧ battle_state step3.2 = Some (state_text 1 0 0 2 create_initial_board)
    ∧ load_state step3.2
      = (Some (counters 1 0 0 2, create_initial_board), step3.2).
Proof.
  split; [reflexivity|]. split; [reflexivity|].
  vm_compute. repeat split; eauto.
Qed.

(** * Further properties of the script *)

(** ** The boundary of an arbitrary row *)

Lemma enumerate_snoc {A} (l : list A) (x : A) :
  Py.enumerate (l ++ [x]) = Py.enumerate l ++ [(length l, x)].
Proof.
  unfold Py.enumerate. rewrite length_app. simpl.
  rewrite seq_app. simpl. rewrite zip_with_app by by rewrite length_seq.
  reflexivity.
Qed.

Lemma a_indices_snoc (row : list ascii) (c : ascii) :
  a_indices (row ++ [c])
  = a_indices row
    ++ (if decide (c = "A"%char) then [Z.of_nat (length row)] else []).
Proof.
  unfold a_indices. rewrite enumerate_snoc, filter_app, fmap_app.
  f_equal. rewrite filter_cons. simpl. by destruct (decide (c = "A"%char)).
Qed.

Lemma max_snoc (l : list Z) (x : Z) :
  Py.max (l ++ [x])
  = Some (match Py.max l with Some m => Z.max m x | None => x end).
Proof. destruct l as [|y l]; [done|]. simpl. by rewrite foldl_app. Qed.

Lemma boundary_of_snoc_range (row : list ascii) :
  (-1 ≤ boundary_of row < Z.of_nat (length row))%Z
  ∧ ∀ c, boundary_of (row ++ [c])
         = if decide (c = "A"%char) then Z.of_nat (length row)
           else boundary_of row.
Proof.
  induction row as [|c0 row [IHr IHs]] using rev_ind.
  - split; [by vm_compute|]. intros c. unfold boundary_of.
    rewrite (a_indices_snoc [] c). by destruct (decide (c = "A"%char)).
  - assert (Hr : (-1 ≤ boundary_of (row ++ [c0])
                  < Z.of_nat (length (row ++ [c0])))%Z).
    { rewrite IHs, length_app. simpl. destruct (decide (c0 = "A"%char)); lia. }
    split; [exact Hr|]. intros c.
    unfold boundary_of in *. rewrite (a_indices_snoc (row ++ [c0]) c).
    destruct (decide (c = "A"%char)); [|by rewrite app_nil_r].
    rewrite max_snoc. destruct (Py.max (a_indices (row ++ [c0]))); [|done].
    f_equal. lia.
Qed.

Lemma boundary_of_snoc (row : list ascii) (c : ascii) :
  boundary_of (row ++ [c])
  = if decide (c = "A"%char) then Z.of_nat (length row) else boundary_of row.
Proof. apply boundary_of_snoc_range. Qed.

Lemma boundary_of_range (row : list ascii) :
  (-1 ≤ boundary_of row < Z.of_nat (length row))%Z.
Proof. apply boundary_of_snoc_range. Qed.

(** X1: for a row of any length, the boundary computed by the battle step
    lies between -1 and the last index, is -1 exactly when no cell is 'A',
    and otherwise is the index of an 'A' cell after which no cell is 'A'. *)
Theorem boundary_of_last_a (row : list ascii) :
  (-1 ≤ boundary_of row < Z.of_nat (length row))%Z
  ∧ (boundary_of row = (-1)%Z ↔ "A"%char ∉ row)
  ∧ (∀ j : nat, (boundary_of row < Z.of_nat j)%Z → row !! j ≠ Some "A"%char)
  ∧ ((0 ≤ boundary_of row)%Z →
     row !! Z.to_nat (boundary_of row) = Some "A"%char).
Proof.
  split; [apply boundary_of_range|].
  induction row as [|c row (IH1 & IH2 & IH3)] using rev_ind.
  - split; [|split].
    + split; [intros _; apply not_elem_of_nil|by vm_compute].
    + by intros j _.
    + by vm_compute.
  - pose proof (boundary_of_range row) as Hr.
    rewrite boundary_of_snoc. destruct (decide (c = "A"%char)) as [->|Hc].
    + split; [|split].
      * split; [lia|]. intros Hn. exfalso. apply Hn.
        apply elem_of_app. right. by apply list_elem_of_singleton.
      * intros j Hj. rewrite lookup_ge_None_2; [done|].
        rewrite length_app. simpl. lia.
      * intros _. rewrite Nat2Z.id. by apply list_lookup_middle.
    + split; [|split].
      * rewrite IH1. rewrite elem_of_app, list_elem_of_singleton.
        split; [intros Hn [?|?]; [done|congruence]|tauto].
      * intros j Hj. destruct (decide (j < length row)) as [Hlt|Hge].
        -- rewrite lookup_app_l by done. by apply IH2.
        -- destruct (decide (j = length row)) as [->|Hne].
           ++ rewrite list_lookup_middle by done. congruence.
           ++ rewrite lookup_ge_None_2; [done|].
              rewrite length_app. simpl. lia.
      * intros H0. rewrite lookup_app_l by lia. by apply IH3.
Qed.

Lemma boundary_of_last_a_witness :
  row_of "BABXA" !! Z.to_nat (boundary_of (row_of "BABXA")) = Some "A"%char.
Proof.
  apply (boundary_of_last_a (row_of "BABXA")). by vm_compute.
Defined.

Lemma boundary_of_replicate (k m : nat) :
  boundary_of (replicate k "A"%char ++ replicate m "B"%char)
  = (Z.of_nat k - 1)%Z.
Proof.
  induction m as [|m IH].
  - rewrite app_nil_r. destruct k as [|k]; [reflexivity|].
    rewrite replicate_S_end, boundary_of_snoc, length_replicate.
    rewrite decide_True by done. lia.
  - rewrite replicate_S_end, app_assoc, boundary_of_snoc.
    by rewrite decide_False.
Qed.

(** X2: a row made of k cells 'A' followed by m cells 'B' has boundary
    k - 1, whatever k and m are. *)
Theorem boundary_of_prefix_row (k m : nat) :
  boundary_of (replicate k "A"%char ++ replicate m "B"%char)
  = (Z.of_nat k - 1)%Z.
Proof. apply boundary_of_replicate. Qed.

Lemma cell_for_row (nb : Z) :
  (-1 ≤ nb ≤ 4)%Z →
  cell_for nb <$> seq 0 BOARD_COLS
  = replicate (Z.to_nat (nb + 1)) "A"%char
    ++ replicate (Z.to_nat (4 - nb)) "B"%char.
Proof.
  intros Hnb.
  assert (nb = -1 ∨ nb = 0 ∨ nb = 1 ∨ nb = 2 ∨ nb = 3 ∨ nb = 4)%Z
    as [->|[->|[->|[->|[->| ->]]]]] by lia; reflexivity.
Qed.

(** X3: the row written by the move has k = boundary + 1 cells 'A' followed
    by cells 'B', and computing its boundary gives the new boundary back,
    for every new boundary between -1 and 4. *)
Theorem rewritten_row_boundary (nb : Z) (row : list ascii) :
  length row = BOARD_COLS → (-1 ≤ nb ≤ 4)%Z →
  ∃ row',
    rewrite_row nb (seq 0 BOARD_COLS) row = Some row'
    ∧ row' = replicate (Z.to_nat (nb + 1)) "A"%char
             ++ replicate (Z.to_nat (4 - nb)) "B"%char
    ∧ boundary_of row' = nb.
Proof.
  intros Hlen Hnb. eexists. split; [by apply rewrite_row_5|].
  rewrite cell_for_row by done. split; [done|].
  rewrite boundary_of_replicate. lia.
Qed.

Lemma rewritten_row_boundary_witness :
  ∃ row',
    rewrite_row 3 (seq 0 BOARD_COLS) (row_of "xyzAB") = Some row'
    ∧ row' = replicate (Z.to_nat (3 + 1)) "A"%char
             ++ replicate (Z.to_nat (4 - 3)) "B"%char
    ∧ boundary_of row' = 3%Z.
Proof.
  apply (rewritten_row_boundary 3 (row_of "xyzAB")); [reflexivity|lia].
Defined.

(** X4: on a row of 5 cells that is not a win, the clamp never acts: the
    new boundary is the old one plus or minus one, according to the coin. *)
Theorem move_boundary_one_step (row : list ascii) (dice_low : bool) :
  length row = BOARD_COLS →
  boundary_of row ≠ (-1)%Z →
  boundary_of row ≠ (Z.of_nat BOARD_COLS - 1)%Z →
  move_boundary (boundary_of row) dice_low
  = (if dice_low then boundary_of row + 1 else boundary_of row - 1)%Z
  ∧ (-1 ≤ move_boundary (boundary_of row) dice_low ≤ 4)%Z.
Proof.
  intros Hlen Hn1 Hn4. pose proof (boundary_of_range row) as Hr.
  rewrite Hlen in Hr. unfold move_boundary, BOARD_COLS in *.
  destruct dice_low; lia.
Qed.

Lemma move_boundary_one_step_witness :
  move_boundary (boundary_of (row_of "AABBB")) false
  = (boundary_of (row_of "AABBB") - 1)%Z
  ∧ (-1 ≤ move_boundary (boundary_of (row_of "AABBB")) false ≤ 4)%Z.
Proof.
  apply (move_boundary_one_step (row_of "AABBB") false);
    [reflexivity|by vm_compute|by vm_compute].
Defined.

(** X5: [is_row_uniform] holds exactly when any two cells of the row are
    equal; in particular it holds for the empty row, where [row[0]] is
    never evaluated. *)
Theorem is_row_uniform_all_equal (row : list ascii) :
  is_row_uniform row = true ↔ ∀ c1 c2, c1 ∈ row → c2 ∈ row → c1 = c2.
Proof.
  destruct row as [|c row].
  - split; [|done]. intros _ c1 c2 H. by apply elem_of_nil in H.
  - unfold is_row_uniform. change ((c :: row) !! 0%nat) with (Some c).
    rewrite forallb_forall. split.
    + intros H c1 c2 H1%list_elem_of_In H2%list_elem_of_In.
      apply H, Ascii.eqb_eq in H1. apply H, Ascii.eqb_eq in H2. congruence.
    + intros H x Hx%list_elem_of_In. apply Ascii.eqb_eq, H; [done|].
      apply elem_of_cons. by left.
Qed.

(** ** What [load_state] can return *)

Lemma universal_newlines_no_cr (s : string) :
  all_chars not_cr (Py.universal_newlines s) = true
  ∧ ∀ c, all_chars not_cr (Py.universal_newlines (String c s)) = true.
Proof.
  induction s as [|c' s [IH1 IH2]].
  - split; [done|]. intros c. simpl.
    destruct (Ascii.eqb c Py.CR) eqn:E; [done|]. simpl.
    unfold not_cr. by rewrite E.
  - split; [apply IH2|]. intros c.
    change (Py.universal_newlines (String c (String c' s))) with
      (if Ascii.eqb c Py.CR then
         if Ascii.eqb c' Py.LF then String Py.LF (Py.universal_newlines s)
         else String Py.LF (Py.universal_newlines (String c' s))
       else String c (Py.universal_newlines (String c' s))).
    destruct (Ascii.eqb c Py.CR) eqn:E.
    + destruct (Ascii.eqb c' Py.LF).
      * change (all_chars not_cr (Py.universal_newlines s) = true). exact IH1.
      * change (all_chars not_cr (Py.universal_newlines (String c' s)) = true).
        apply IH2.
    + change (not_cr c && all_chars not_cr
                            (Py.universal_newlines (String c' s)) = true).
      rewrite IH2. unfold not_cr. by rewrite E.
Qed.

Lemma readlines_chars (p : ascii → bool) (s : string) :
  p Py.LF = true → all_chars p s = true →
  Forall (λ l, all_chars p l = true) (Py.readlines s).
Proof.
  intros HLF. induction s as [|c s IH]; [constructor|].
  change (all_chars p (String c s)) with (p c && all_chars p s).
  rewrite andb_true_iff. intros [Hc Hs]. specialize (IH Hs).
  change (Py.readlines (String c s)) with
    (if Ascii.eqb c Py.LF then String Py.LF EmptyString :: Py.readlines s
     else match Py.readlines s with
          | [] => [String c EmptyString]
          | l :: ls => String c l :: ls
          end).
  destruct (Ascii.eqb c Py.LF).
  - constructor; [|done]. simpl. by rewrite HLF.
  - destruct (Py.readlines s) as [|l ls].
    + constructor; [|done]. simpl. by rewrite Hc.
    + apply Forall_cons in IH as [Hl Hls]. constructor; [|done].
      simpl. by rewrite Hc, Hl.
Qed.

Lemma rstrip_chars (p q : ascii → bool) (s : string) :
  all_chars p s = true → all_chars p (Py.rstrip q s) = true.
Proof.
  induction s as [|c s IH]; [done|].
  change (all_chars p (String c s)) with (p c && all_chars p s).
  rewrite andb_true_iff. intros [Hc Hs]. specialize (IH Hs).
  change (Py.rstrip q (String c s)) with
    (match Py.rstrip q s with
     | EmptyString => if q c then EmptyString else String c EmptyString
     | t => String c t
     end).
  destruct (Py.rstrip q s) as [|c' t].
  - destruct (q c); [done|]. simpl. by rewrite Hc.
  - change (p c && all_chars p (String c' t) = true). by rewrite Hc, IH.
Qed.

Lemma rstrip_cons_no_lf (c : ascii) (l : string) :
  Ascii.eqb c Py.LF = false →
  all_chars not_lf (Py.rstrip (Ascii.eqb Py.LF) l) = true →
  all_chars not_lf (Py.rstrip (Ascii.eqb Py.LF) (String c l)) = true.
Proof.
  intros Hc Hl. rewrite Ascii.eqb_sym in Hc.
  change (Py.rstrip (Ascii.eqb Py.LF) (String c l)) with
    (match Py.rstrip (Ascii.eqb Py.LF) l with
     | EmptyString =>
         if Ascii.eqb Py.LF c then EmptyString else String c EmptyString
     | t => String c t
     end).
  destruct (Py.rstrip (Ascii.eqb Py.LF) l) as [|c' t].
  - rewrite Hc. simpl. unfold not_lf. by rewrite Hc.
  - change (not_lf c && all_chars not_lf (String c' t) = true).
    rewrite Hl. unfold not_lf. by rewrite Hc.
Qed.

Lemma readlines_rstrip_no_lf (s : string) :
  Forall (λ l, all_chars not_lf (Py.rstrip (Ascii.eqb Py.LF) l) = true)
    (Py.readlines s).
Proof.
  induction s as [|c s IH]; [constructor|].
  change (Py.readlines (String c s)) with
    (if Ascii.eqb c Py.LF then String Py.LF EmptyString :: Py.readlines s
     else match Py.readlines s with
          | [] => [String c EmptyString]
          | l :: ls => String c l :: ls
          end).
  destruct (Ascii.eqb c Py.LF) eqn:E.
  - by constructor.
  - destruct (Py.readlines s) as [|l ls].
    + constructor; [|done]. by apply rstrip_cons_no_lf.
    + apply Forall_cons in IH as [Hl Hls]. constructor; [|done].
      by apply rstrip_cons_no_lf.
Qed.

Lemma file_lines_plain (content : string) :
  Forall (λ l, all_chars not_lf l = true ∧ all_chars not_cr l = true)
    (file_lines content).
Proof.
  unfold file_lines. apply Forall_fmap.
  pose proof (readlines_rstrip_no_lf (Py.universal_newlines content)) as H1.
  pose proof (readlines_chars not_cr (Py.universal_newlines content)
                eq_refl (proj1 (universal_newlines_no_cr content))) as H2.
  apply Forall_and; split; [exact H1|].
  eapply Forall_impl; [exact H2|]. intros l Hl. by apply rstrip_chars.
Qed.

Lemma plain_line_cells (l : string) :
  all_chars not_lf l = true → all_chars not_cr l = true →
  no_line_break (list_ascii_of_string l).
Proof.
  unfold no_line_break. induction l as [|c l IH]; [constructor|].
  simpl. rewrite !andb_true_iff. intros [Hc1 Hl1] [Hc2 Hl2].
  constructor; [|by apply IH].
  unfold line_break, not_lf, not_cr in *.
  apply negb_true_iff in Hc1, Hc2. rewrite Ascii.eqb_sym in Hc1.
  by rewrite Hc1, Hc2.
Qed.

Lemma load_state_try_plain content wins board :
  load_state_try content = Some (wins, board) → Forall no_line_break board.
Proof.
  unfold load_state_try.
  destruct (length (file_lines content) <? 1 + BOARD_ROWS)%nat.
  { intros [= <- <-]. apply initial_board_shape. }
  destruct (file_lines content !! 0%nat) as [line0|]; [|done].
  cbn [mbind option_bind].
  destruct (parse_parts _ _) as [wins0|]; [|done].
  cbn [mbind option_bind].
  destruct (existsb _ _).
  { intros [= <- <-]. apply initial_board_shape. }
  intros [= <- <-]. apply Forall_fmap, Forall_take, Forall_drop.
  eapply Forall_impl; [apply file_lines_plain|].
  intros l [H1 H2]. by apply plain_line_cells.
Qed.

(** X6: whatever the state file holds, or if it is missing, [load_state]
    returns without raising and without touching the files; the board has
    6 rows of 5 cells, no cell is a line feed or a carriage return, and the
    counters DAYS and RECORD are present. *)
Theorem load_state_always_well_shaped fs :
  ∃ wins board,
    load_state fs = (Some (wins, board), fs)
    ∧ board_6x5 board
    ∧ Forall no_line_break board
    ∧ is_Some (wins !! "DAYS") ∧ is_Some (wins !! "RECORD").
Proof.
  destruct (load_state_run fs) as (wins & board & Hload & H6 & Hd & Hr).
  exists wins, board. split; [done|]. split; [done|]. split; [|done].
  revert Hload. unfold load_state. destruct (battle_state fs) as [content|].
  - destruct (load_state_try content) as [[w b]|] eqn:E.
    + intros [= <- <-]. by eapply load_state_try_plain.
    + intros [= <- <-]. apply initial_board_shape.
  - intros [= <- <-]. apply initial_board_shape.
Qed.

Lemma load_state_inv_plain fs wins board fs' :
  load_state fs = (Some (wins, board), fs') → Forall no_line_break board.
Proof.
  unfold load_state. destruct (battle_state fs) as [content|].
  - destruct (load_state_try content) as [[w b]|] eqn:E.
    + intros [= <- <- <-]. by eapply load_state_try_plain.
    + intros [= <- <- <-]. apply initial_board_shape.
  - intros [= <- <- <-]. apply initial_board_shape.
Qed.

(** X7: saving the state that [load_state] returned and loading again gives
    the same board and the four counters A, B, DAYS, RECORD with the same
    values; any other counter read from the file is dropped. *)
Theorem load_save_load fs (wins : gmap string Z) (board : list (list ascii))
    (a b : Z) :
  load_state fs = (Some (wins, board), fs) →
  wins !! "A" = Some a → wins !! "B" = Some b →
  ∃ d r fs1,
    wins !! "DAYS" = Some d ∧ wins !! "RECORD" = Some r
    ∧ save_state wins board fs = (Some tt, fs1)
    ∧ load_state fs1 = (Some (counters a b d r, board), fs1).
Proof.
  intros Hload Ha Hb.
  destruct (load_state_inv _ _ _ _ Hload) as (_ & H6 & [d Hd] & [r Hr]).
  pose proof (load_state_inv_plain _ _ _ _ Hload) as Hnl.
  exists d, r, (saved (state_text a b d r board) fs).
  split; [done|]. split; [done|].
  split; [by apply save_state_run|by apply load_state_saved].
Qed.

Lemma load_save_load_witness :
  ∃ d r fs1,
    counters 1 2 3 4 !! "DAYS" = Some d ∧ counters 1 2 3 4 !! "RECORD" = Some r
    ∧ save_state (counters 1 2 3 4) sample_board sample_files = (Some tt, fs1)
    ∧ load_state fs1 = (Some (counters 1 2 d r, sample_board), fs1).
Proof.
  apply (load_save_load sample_files (counters 1 2 3 4) sample_board 1 2).
  - exact sample_files_load.
  - reflexivity.
  - reflexivity.
Defined.

Lemma save_state_missing (wins : gmap string Z) board fs :
  wins !! "A" = None ∨ wins !! "B" = None
  ∨ wins !! "DAYS" = None ∨ wins !! "RECORD" = None →
  save_state wins board fs = (None, saved "" fs).
Proof.
  intros H. unfold save_state, bind, lift, open_state_w. simpl.
  destruct (wins !! "A"); [|done].
  destruct (wins !! "B"); [|done].
  destruct (wins !! "DAYS"); [|done].
  destruct (wins !! "RECORD"); [|done].
  by destruct H as [?|[?|[?|?]]].
Qed.

(** X8: if one of the four counters is missing, [save_state] raises after
    it has truncated the state file: the file is left empty, the output
    file is untouched, and the next [load_state] returns the default
    state. *)
Theorem save_state_missing_counter (wins : gmap string Z)
    (board : list (list ascii)) fs :
  wins !! "A" = None ∨ wins !! "B" = None
  ∨ wins !! "DAYS" = None ∨ wins !! "RECORD" = None →
  ∃ fs1,
    save_state wins board fs = (None, fs1)
    ∧ battle_state fs1 = Some ""
    ∧ battle_map fs1 = battle_map fs
    ∧ load_state fs1 = (Some default_state, fs1).
Proof.
  intros H. exists (saved "" fs).
  split; [by apply save_state_missing|]. by repeat split.
Qed.

Lemma save_state_missing_counter_witness :
  ∃ fs1,
    save_state (delete "B" (counters 1 2 3 4)) sample_board sample_files
    = (None, fs1)
    ∧ battle_state fs1 = Some ""
    ∧ battle_map fs1 = battle_map sample_files
    ∧ load_state fs1 = (Some default_state, fs1).
Proof.
  apply (save_state_missing_counter (delete "B" (counters 1 2 3 4))
           sample_board sample_files).
  right. left. reflexivity.
Defined.



(** ** Other first lines *)











(** ** One run of the battle step, as seen by the next run *)

Lemma generate_ascii_board_missing board (wins : gmap string Z) :
  wins !! "A" = None ∨ wins !! "B" = None
  ∨ wins !! "DAYS" = None ∨ wins !! "RECORD" = None →
  generate_ascii_board board wins = None.
Proof.
  intros H. unfold generate_ascii_board.
  destruct (board !! 0%nat); [|done]. cbn [mbind option_bind].
  destruct (wins !! "A"); [|done]. cbn [mbind option_bind].
  destruct (wins !! "B"); [|done]. cbn [mbind option_bind].
  destruct (wins !! "DAYS"); [|done]. cbn [mbind option_bind].
  destruct (wins !! "RECORD"); [|done].
  by destruct H as [?|[?|[?|?]]].
Qed.

(** Every outcome of a run that finds both tallies. *)
Lemma step_outcome fs (i : nat) (dice : bool) (wins : gmap string Z)
    (board : list (list ascii)) (row : list ascii) (a b d r : Z) :
  load_state fs = (Some (wins, board), fs) →
  board !! i = Some row →
  wins !! "A" = Some a → wins !! "B" = Some b →
  wins !! "DAYS" = Some d → wins !! "RECORD" = Some r →
  ∃ out a' b' d' r' board',
    simulate_battle i dice fs
    = (Some out, Files (Some (state_text a' b' d' r' board')) (Some out))
    ∧ load_state (Files (Some (state_text a' b' d' r' board')) (Some out))
      = (Some (counters a' b' d' r', board'),
         Files (Some (state_text a' b' d' r' board')) (Some out))
    ∧ ((boundary_of row = 4%Z ∧ a' = (a + 1)%Z ∧ b' = b ∧ d' = 0%Z ∧ r' = r
        ∧ board' = create_initial_board)
       ∨ (boundary_of row = (-1)%Z ∧ a' = a ∧ b' = (b + 1)%Z ∧ d' = 0%Z
          ∧ r' = r ∧ board' = create_initial_board)
       ∨ (boundary_of row ≠ 4%Z ∧ boundary_of row ≠ (-1)%Z
          ∧ a' = a ∧ b' = b ∧ d' = (d + 1)%Z ∧ r' = Z.max r (d + 1)
          ∧ board' = <[i := cell_for (move_boundary (boundary_of row) dice)
                             <$> seq 0 BOARD_COLS]> board)).
Proof.
  intros Hload Hrow Ha Hb Hd Hr.
  destruct (load_state_inv _ _ _ _ Hload) as (_ & H65 & _ & _).
  pose proof (load_state_inv_plain _ _ _ _ Hload) as Hnl.
  destruct initial_board_shape as (H6i & Hnli & _).
  destruct (decide (boundary_of row = 4%Z)) as [H4|Hn4];
    [|destruct (decide (boundary_of row = (-1)%Z)) as [H1|Hn1]].
  - destruct (record_win_lookups "A" wins a Ha) as (Hrec & Hw & Hd' & Hoth);
      [done|].
    destruct (simulate_battle_win_run fs i dice wins board row "A" _
                (a + 1) b 0 r ltac:(done) ltac:(done) ltac:(auto)
                ltac:(eauto) ltac:(eauto) Hrec) as [out Hout];
      [done|by rewrite Hoth|done|by rewrite Hoth|].
    exists out, (a + 1)%Z, b, 0%Z, r, create_initial_board.
    split; [done|]. split; [by apply load_state_saved|]. left. done.
  - destruct (record_win_lookups "B" wins b Hb) as (Hrec & Hw & Hd' & Hoth);
      [done|].
    destruct (simulate_battle_win_run fs i dice wins board row "B" _
                a (b + 1) 0 r ltac:(done) ltac:(done) ltac:(auto)
                ltac:(eauto) ltac:(eauto) Hrec) as [out Hout];
      [by rewrite Hoth|done|done|by rewrite Hoth|].
    exists out, a, (b + 1)%Z, 0%Z, r, create_initial_board.
    split; [done|]. split; [by apply load_state_saved|]. right. left. done.
  - destruct (update_days_lookups wins a b d r Ha Hb Hd Hr)
      as (wins' & Hupd & Ha' & Hb' & Hd' & Hr' & _).
    destruct (simulate_battle_move_run fs i dice wins wins' board row
                a b _ _ Hload Hrow Hn4 Hn1 Hupd Ha' Hb' Hd' Hr')
      as [out Hout].
    assert ((if (d + 1 >? r)%Z then (d + 1)%Z else r) = Z.max r (d + 1)) as E.
    { destruct (Z.gtb_spec (d + 1) r); lia. }
    rewrite E in Hout.
    set (row' := cell_for (move_boundary (boundary_of row) dice)
                 <$> seq 0 BOARD_COLS) in *.
    exists out, a, b, (d + 1)%Z, (Z.max r (d + 1)), (<[i := row']> board).
    split; [exact Hout|]. split; [|right; right; done].
    apply load_state_saved.
    + apply board_6x5_insert; [done|reflexivity].
    + apply Forall_insert; [done|].
      apply single_boundary_no_line_break, cell_for_single_boundary.
Qed.

Lemma simulate_battle_raises_unchanged fs (i : nat) (dice : bool)
    (wins : gmap string Z) (board : list (list ascii)) :
  load_state fs = (Some (wins, board), fs) →
  wins !! "A" = None ∨ wins !! "B" = None →
  simulate_battle i dice fs = (None, fs).
Proof.
  intros Hload Hmiss.
  destruct (load_state_inv _ _ _ _ Hload) as (_ & [H6 H5] & [d Hd] & [r Hr]).
  unfold simulate_battle.
  rewrite (bind_run _ _ _ _ _ Hload). cbv beta iota.
  destruct (board !! i) as [row|] eqn:Hrow; [|done].
  rewrite (bind_lift _ _ _ row eq_refl). cbv zeta.
  destruct ((boundary_of row =? Z.of_nat BOARD_COLS - 1)%Z
            || (boundary_of row =? -1)%Z).
  - rewrite generate_ascii_board_missing; [done|].
    destruct Hmiss; auto.
  - rewrite (bind_lift _ _ _ _ (update_days_run wins d r Hd Hr)).
    assert (length row = BOARD_COLS) as Hlen
      by by eapply (Forall_lookup_1 _ _ _ _ H5).
    rewrite (bind_lift _ _ _ _ (rewrite_row_5 _ row Hlen)).
    rewrite generate_ascii_board_missing; [done|].
    destruct Hmiss as [Hm|Hm]; [left|right; left];
      destruct (d + 1 >? r)%Z; by rewrite ?lookup_insert_ne by done.
Qed.

(** X12: when the loaded counters lack the tally A or the tally B, the run
    raises (in the renderer, before anything is written) and both files
    are left as they were. *)
Theorem simulate_battle_missing_tally fs (i : nat) (dice : bool)
    (wins : gmap string Z) (board : list (list ascii)) :
  load_state fs = (Some (wins, board), fs) →
  wins !! "A" = None ∨ wins !! "B" = None →
  simulate_battle i dice fs = (None, fs).
Proof. apply simulate_battle_raises_unchanged. Qed.

Lemma simulate_battle_missing_tally_witness :
  simulate_battle 1 false no_tally_files = (None, no_tally_files).
Proof.
  apply (simulate_battle_missing_tally no_tally_files 1 false
           (<["RECORD" := 5%Z]> (<["DAYS" := 2%Z]> ∅)) sample_board).
  - by vm_compute.
  - left. reflexivity.
Defined.






(** ** Sequences of runs *)




(** ** The renderer *)








(** ** All or nothing, and who wins *)

(** X18: a run either returns, and then the state file holds the canonical
    text of a state and the output file holds the returned text, or it
    raises, and then both files are exactly as before; it never leaves a
    truncated or half-written state file. *)
Theorem simulate_battle_all_or_nothing fs (i : nat) (dice : bool) :
  (∃ out a b d r board,
     simulate_battle i dice fs
     = (Some out, Files (Some (state_text a b d r board)) (Some out)))
  ∨ simulate_battle i dice fs = (None, fs).
Proof.
  destruct (load_state_run fs) as (wins & board & Hload & _ & [d Hd] & [r Hr]).
  destruct (wins !! "A") as [a|] eqn:Ha;
    [|right; eapply simulate_battle_raises_unchanged; eauto].
  destruct (wins !! "B") as [b|] eqn:Hb;
    [|right; eapply simulate_battle_raises_unchanged; eauto].
  destruct (board !! i) as [row|] eqn:Hrow.
  - left.
    destruct (step_outcome fs i dice wins board row a b d r)
      as (out & a' & b' & d' & r' & board' & Hsim & _); try done.
    by exists out, a', b', d', r', board'.
  - right. unfold simulate_battle.
    rewrite (bind_run _ _ _ _ _ Hload). cbv beta iota. by rewrite Hrow.
Qed.

(** X19: on a row of 5 cells the win test looks at 'A' cells only: faction
    A is the winner exactly when the last cell is 'A', whatever the other
    cells are, and faction B exactly when no cell is 'A'. *)
Theorem win_test_by_cells (row : list ascii) :
  length row = BOARD_COLS →
  (boundary_of row = (Z.of_nat BOARD_COLS - 1)%Z
   ↔ row !! 4%nat = Some "A"%char)
  ∧ (boundary_of row = (-1)%Z ↔ Forall (λ c, c ≠ "A"%char) row).
Proof.
  intros (c0 & c1 & c2 & c3 & c4 & ->)%row_of_length_5.
  change [c0; c1; c2; c3; c4] with ([c0; c1; c2; c3] ++ [c4]).
  rewrite boundary_of_snoc.
  pose proof (boundary_of_range [c0; c1; c2; c3]) as Hr.
  change (Z.of_nat BOARD_COLS - 1)%Z with 4%Z.
  change (Z.of_nat (length [c0; c1; c2; c3])) with 4%Z in *.
  change (([c0; c1; c2; c3] ++ [c4]) !! 4%nat) with (Some c4).
  rewrite Forall_app, Forall_singleton.
  destruct (decide (c4 = "A"%char)) as [->|Hc4].
  - split; [done|]. split; [lia|]. by intros [_ ?].
  - split; [split; [lia|congruence]|].
    change [c0; c1; c2; c3] with ([c0; c1; c2] ++ [c3]) in *.
    rewrite boundary_of_snoc in *.
    pose proof (boundary_of_range [c0; c1; c2]) as Hr3.
    rewrite Forall_app, Forall_singleton.
    destruct (decide (c3 = "A"%char)) as [->|Hc3];
      [split; [simpl; lia|by intros [[_ ?] _]]|].
    change [c0; c1; c2] with ([c0; c1] ++ [c2]) in *.
    rewrite boundary_of_snoc in *.
    rewrite Forall_app, Forall_singleton.
    destruct (decide (c2 = "A"%char)) as [->|Hc2];
      [split; [simpl; lia|by intros [[[_ ?] _] _]]|].
    change [c0; c1] with ([c0] ++ [c1]) in *.
    rewrite boundary_of_snoc in *.
    rewrite Forall_app, !Forall_singleton.
    destruct (decide (c1 = "A"%char)) as [->|Hc1];
      [split; [simpl; lia|by intros [[[[_ ?] _] _] _]]|].
    change [c0] with ([] ++ [c0]) in *.
    rewrite boundary_of_snoc in *.
    destruct (decide (c0 = "A"%char)) as [->|Hc0];
      [split; [simpl; lia|by intros [[[[? _] _] _] _]]|].
    split; [done|by vm_compute].
Qed.

Lemma win_test_by_cells_witness :
  boundary_of (row_of "BxByA") = (Z.of_nat BOARD_COLS - 1)%Z
  ↔ row_of "BxByA" !! 4%nat = Some "A"%char.
Proof.
  apply (win_test_by_cells (row_of "BxByA")). reflexivity.
Defined.
